(** * Team Hub: the synchronisation and authorisation core of [src/App.jsx]

    A shallow embedding of the React component [App]: its state, the two
    effects (identity bootstrap, seeding and subscriptions) and its event
    handlers, over a small model of the Firestore document store. *)

From Stdlib Require Import ZArith NArith Ascii String List Lia.
From stdpp Require Import base option numbers list strings gmap pretty.

Local Open Scope Z_scope.

(** ** JavaScript strings

    A JS string is a sequence of UTF-16 code units; [length], [substring],
    [trim] and [parseInt] all work on code units. *)

Definition jsstring : Type := list N.

(** An ASCII literal of the source as a JS string. *)
Definition js (s : string) : jsstring :=
  map N_of_ascii (list_ascii_of_string s).

(** Truthiness of a string: only the empty string is falsy. *)
Definition truthy (s : jsstring) : bool :=
  match s with
  | [] => false
  | _ :: _ => true
  end.

(** Truthiness of a string-or-null. *)
Definition truthy_opt (o : option jsstring) : bool :=
  match o with
  | Some s => truthy s
  | None => false
  end.

(** [s.substring(0, n)] for [n] within the small constants of the source. *)
Definition substring0 (n : nat) (s : jsstring) : jsstring := take n s.

(** ECMAScript WhiteSpace and LineTerminator code points, the characters
    stripped by [String.prototype.trim] and skipped by [parseInt]. *)
Definition isWhiteSpace (c : N) : bool :=
  ((9 <=? c) && (c <=? 13) || (c =? 32) || (c =? 160) || (c =? 5760)
   || (8192 <=? c) && (c <=? 8202) || (c =? 8232) || (c =? 8233)
   || (c =? 8239) || (c =? 8287) || (c =? 12288) || (c =? 65279))%N.

Fixpoint trimStart (s : jsstring) : jsstring :=
  match s with
  | c :: r => if isWhiteSpace c then trimStart r else s
  | [] => []
  end.

Definition trimEnd (s : jsstring) : jsstring := rev (trimStart (rev s)).

Definition trim (s : jsstring) : jsstring := trimEnd (trimStart s).

(** *** [parseInt(s, 10)]

    ECMAScript: skip leading white space, read an optional sign, then the
    longest prefix of decimal digits; no digit gives [NaN], here [None].
    The result here is the exact integer the digits denote. That is the
    value JS gives as long as it is at most 2^53 in size; beyond, JS
    rounds it to a double, [toDouble] below. The rounding cannot change
    the outcome of the range check of [handleJerseyUpdate]; where the
    source compares the result for equality, the model applies
    [toDouble]. (JS also returns [-0] for a negated zero, which compares
    as [0].) *)

Definition digitVal (c : N) : option Z :=
  if ((48 <=? c) && (c <=? 57))%N then Some (Z.of_N c - 48) else None.

Fixpoint digitsPrefix (s : jsstring) : list Z :=
  match s with
  | c :: r =>
      match digitVal c with
      | Some d => d :: digitsPrefix r
      | None => []
      end
  | [] => []
  end.

Definition decimalValue (ds : list Z) : Z :=
  fold_left (fun acc d => 10 * acc + d) ds 0.

Definition splitSign (s : jsstring) : Z * jsstring :=
  match s with
  | 45%N :: r => (-1, r)
  | 43%N :: r => (1, r)
  | _ => (1, s)
  end.

Definition parseInt (s : jsstring) : option Z :=
  let '(sign, body) := splitSign (trimStart s) in
  match digitsPrefix body with
  | [] => None
  | ds => Some (sign * decimalValue ds)
  end.

(** The guard of [handleJerseyUpdate]: [newJersey >= 0 && newJersey < 100],
    both comparisons false on [NaN]. *)
Definition jerseyInRange (n : option Z) : bool :=
  match n with
  | Some k => (0 <=? k) && (k <? 100)
  | None => false
  end.

(** The Number that stands for an integer: the integer itself up to
    2^53 in size, beyond that the nearest double (53 significant bits,
    ties to the even one). [parseInt] ends with this conversion. It keeps
    the order, and 0 and 100 are their own doubles, which is why the
    guard above may test the exact integer. A result beyond the largest
    double stands for an infinity: it keeps its sign and equals no
    stored number. *)
Definition toDouble (n : Z) : Z :=
  let a := Z.abs n in
  if a <=? 2 ^ 53 then n
  else
    let e := Z.log2 a - 52 in
    let q := a / 2 ^ e in
    let r := a mod 2 ^ e in
    let half := 2 ^ (e - 1) in
    let q' := if (half <? r) || ((r =? half) && Z.odd q) then q + 1 else q in
    Z.sgn n * (q' * 2 ^ e).

(** ** Documents and the document store

    Firestore documents are schemaless maps from field names to values.
    The values this program stores are strings, numbers, arrays of
    strings (the administrator list) and [null]. *)

Inductive value : Type :=
| VNull
| VStr (s : jsstring)
| VNum (n : Z)
| VArr (l : list jsstring).

#[global] Instance value_eq_dec : EqDecision value.
Proof. solve_decision. Defined.

Abbreviation document := (gmap string value).

(** A field of an [updateDoc] payload: a plain value or one of the
    [arrayUnion] / [arrayRemove] field transforms. *)
Inductive fieldWrite : Type :=
| Put (v : value)
| ArrayUnion (x : jsstring)
| ArrayRemove (x : jsstring).

#[global] Instance fieldWrite_eq_dec : EqDecision fieldWrite.
Proof. solve_decision. Defined.

(** [arrayUnion(x)]: append [x] unless it is already an element. *)
Definition arrayUnion (x : jsstring) (l : list jsstring) : list jsstring :=
  if bool_decide (x ∈ l) then l else l ++ [x].

(** [arrayRemove(x)]: drop every occurrence of [x]. *)
Definition arrayRemove (x : jsstring) (l : list jsstring) : list jsstring :=
  filter (fun y => y ≠ x) l.

(** A transform applied to a field that is missing or not an array
    starts from the empty array. *)
Definition arrayOf (old : option value) : list jsstring :=
  match old with
  | Some (VArr l) => l
  | _ => []
  end.

Definition applyFieldWrite (w : fieldWrite) (old : option value) : value :=
  match w with
  | Put v => v
  | ArrayUnion x => VArr (arrayUnion x (arrayOf old))
  | ArrayRemove x => VArr (arrayRemove x (arrayOf old))
  end.

(** The document after an update: written fields are replaced or
    transformed, the others are kept. *)
Definition applyUpdates (upd : gmap string fieldWrite) (d : document) : document :=
  merge (fun w old =>
           match w with
           | Some w => Some (applyFieldWrite w old)
           | None => old
           end) upd d.

(** The two places this program reads and writes: a document of the
    players collection, and the single team-settings document
    ([TEAM_SETTINGS_DOC_PATH] / [HUB_DOC_ID]). *)
Inductive docRef : Type :=
| PlayerDoc (id : jsstring)
| HubDoc.

#[global] Instance docRef_eq_dec : EqDecision docRef.
Proof. solve_decision. Defined.

(** The store is one consistent copy: a read sees every write that was
    awaited before it. *)
Record Store : Type := mkStore {
  playersColl : gmap jsstring document;
  settingsDoc : option document
}.

Definition emptyStore : Store := mkStore ∅ None.

Definition readDoc (r : docRef) (s : Store) : option document :=
  match r with
  | PlayerDoc i => playersColl s !! i
  | HubDoc => settingsDoc s
  end.

Definition putDoc (r : docRef) (d : document) (s : Store) : Store :=
  match r with
  | PlayerDoc i => mkStore (<[i := d]> (playersColl s)) (settingsDoc s)
  | HubDoc => mkStore (playersColl s) (Some d)
  end.

(** What the program does to the outside world, in order: remote writes
    and console output. *)
Inductive Event : Type :=
| SetDoc (r : docRef) (d : document)
| SetDocMerge (r : docRef) (d : document)
| UpdateDoc (r : docRef) (u : gmap string fieldWrite)
| ConsoleLog (msg : string)
| ConsoleWarn (msg : string)
| ConsoleError (msg : string).

Definition isWrite (e : Event) : bool :=
  match e with
  | SetDoc _ _ | SetDocMerge _ _ | UpdateDoc _ _ => true
  | _ => false
  end.

Definition remoteWrites (t : list Event) : list Event := List.filter isWrite t.

Record World : Type := mkWorld {
  store : Store;
  trace : list Event
}.

(** ** Asynchronous code as a state-and-exception monad

    An awaited call either completes with a value or throws; the world
    keeps whatever was done before the throw. Every awaited call
    settles: a call that stays pending (a write while the store cannot be
    reached), and with it the state of a handler suspended at its
    [await], is outside the model. What a handler does after an [await]
    it does once that call has settled. *)

Inductive Outcome (A : Type) : Type :=
| Done (a : A)
| Threw (e : string).

Arguments Done {A} a.
Arguments Threw {A} e.

Definition M (A : Type) : Type := World -> Outcome A * World.

Definition ret {A} (a : A) : M A := fun w => (Done a, w).

Definition bind {A B} (c : M A) (k : A -> M B) : M B :=
  fun w =>
    match c w with
    | (Done a, w') => k a w'
    | (Threw e, w') => (Threw e, w')
    end.

Definition throw {A} (e : string) : M A := fun w => (Threw e, w).

(** [try { c } catch (error) { h error }] *)
Definition tryCatch {A} (c : M A) (h : string -> M A) : M A :=
  fun w =>
    match c w with
    | (Done a, w') => (Done a, w')
    | (Threw e, w') => h e w'
    end.

Notation "x <- c ;; k" := (bind c (fun x => k))
  (at level 100, c at next level, right associativity).
Notation "c ;; k" := (bind c (fun _ => k))
  (at level 100, right associativity).

Definition emit (e : Event) : M unit :=
  fun w => (Done tt, mkWorld (store w) (trace w ++ [e])).

Definition getStore : M Store := fun w => (Done (store w), w).

Definition setStore (s : Store) : M unit :=
  fun w => (Done tt, mkWorld s (trace w)).

(** [setDoc(ref, data)]: create or replace. *)
Definition setDoc (r : docRef) (d : document) : M unit :=
  emit (SetDoc r d) ;;
  s <- getStore ;;
  setStore (putDoc r d s).

(** [setDoc(ref, data, { merge: true })]: create, or overwrite the given
    fields only. *)
Definition setDocMerge (r : docRef) (d : document) : M unit :=
  emit (SetDocMerge r d) ;;
  s <- getStore ;;
  setStore (putDoc r (d ∪ default ∅ (readDoc r s)) s).

(** [updateDoc(ref, updates)]: rejects when the document does not exist. *)
Definition updateDoc (r : docRef) (u : gmap string fieldWrite) : M unit :=
  emit (UpdateDoc r u) ;;
  s <- getStore ;;
  match readDoc r s with
  | Some d => setStore (putDoc r (applyUpdates u d) s)
  | None => throw "not-found"
  end.

Definition consoleLog (msg : string) : M unit := emit (ConsoleLog msg).
Definition consoleWarn (msg : string) : M unit := emit (ConsoleWarn msg).
Definition consoleError (msg : string) : M unit := emit (ConsoleError msg).

(** A query result: the matching documents with their ids. *)
Definition QuerySnapshot : Type := list (jsstring * document).

Definition snapEmpty (q : QuerySnapshot) : bool :=
  match q with
  | [] => true
  | _ :: _ => false
  end.

(** [getDocs(collection(db, PLAYERS_COLLECTION))]. The documents come in
    the order of the map, which need not be the order the store uses (by
    document id); what is proved of a snapshot does not depend on it. *)
Definition getDocsPlayers : M QuerySnapshot :=
  s <- getStore ;; ret (map_to_list (playersColl s)).

(** [getDocs(query(playersCollectionRef, where('userId', '==', uid)))] *)
Definition getDocsWhereUserId (uid : jsstring) : M QuerySnapshot :=
  s <- getStore ;;
  ret (List.filter (fun kd => bool_decide (kd.2 !! "userId"%string = Some (VStr uid)))
         (map_to_list (playersColl s))).

(** ** Constants of the source *)

Local Open Scope string_scope.

Definition ADMIN_IDS_FIELD : string := "admin_user_ids".

Definition MOCK_PLAYERS : list document :=
  [ {[ "name" := VStr (js "Alex Johnson"); "jerseyNumber" := VNum 23;
       "headshotUrl" := VStr (js "https://placehold.co/100x100/1e40af/ffffff?text=AJ");
       "role" := VStr (js "Captain") ]};
    {[ "name" := VStr (js "Maria Garcia"); "jerseyNumber" := VNum 11;
       "headshotUrl" := VStr (js "https://placehold.co/100x100/1d4ed8/ffffff?text=MG");
       "role" := VStr (js "Forward") ]};
    {[ "name" := VStr (js "Sam Chen"); "jerseyNumber" := VNum 88;
       "headshotUrl" := VStr (js "https://placehold.co/100x100/3b82f6/ffffff?text=SC");
       "role" := VStr (js "Defense") ]} ].

(** [timestamp] is [new Date().toISOString()] at module load: [loadTime]. *)
Definition INITIAL_HUB_DATA (loadTime : jsstring) : document :=
  {[ "opponent" := VStr (js "The Go-Getters (Initial Seed)");
     "dateTime" := VStr (js "Friday, October 4th at 7:00 PM");
     "totalPlayers" := VNum 3;
     "captains" := VNum 1;
     "jerseyColor" := VStr (js "Emerald Green");
     "coachsMessage" := VStr (js "Welcome to the unified Team Hub! This message is synced via the cloud. Go to the Roster tab to set your name and number.");
     "timestamp" := VStr loadTime ]}.

(** ** The state of the [App] component *)

Inductive View : Type := Dashboard | Roster.

Record App : Type := mkApp {
  db : bool;                          (* the Firestore handle is set *)
  auth : bool;                        (* the Auth handle is set *)
  userId : option jsstring;           (* [null] until identity bootstrap *)
  isAuthReady : bool;
  currentView : View;
  players : list document;
  selectedPlayer : option document;
  isDetailOpen : bool;
  adminIds : list jsstring;
  hubData : document
}.

Definition initialApp (loadTime : jsstring) : App :=
  mkApp false false None false Dashboard [] None false [] (INITIAL_HUB_DATA loadTime).

Definition setDb (v : bool) (a : App) : App :=
  mkApp v (auth a) (userId a) (isAuthReady a) (currentView a) (players a)
    (selectedPlayer a) (isDetailOpen a) (adminIds a) (hubData a).

Definition setAuth (v : bool) (a : App) : App :=
  mkApp (db a) v (userId a) (isAuthReady a) (currentView a) (players a)
    (selectedPlayer a) (isDetailOpen a) (adminIds a) (hubData a).

Definition setUserId (v : option jsstring) (a : App) : App :=
  mkApp (db a) (auth a) v (isAuthReady a) (currentView a) (players a)
    (selectedPlayer a) (isDetailOpen a) (adminIds a) (hubData a).

Definition setIsAuthReady (v : bool) (a : App) : App :=
  mkApp (db a) (auth a) (userId a) v (currentView a) (players a)
    (selectedPlayer a) (isDetailOpen a) (adminIds a) (hubData a).

Definition setPlayers (v : list document) (a : App) : App :=
  mkApp (db a) (auth a) (userId a) (isAuthReady a) (currentView a) v
    (selectedPlayer a) (isDetailOpen a) (adminIds a) (hubData a).

(** [setSelectedPlayer(p => ({ ...p, [field]: v }))]; spreading [null]
    gives no field. *)
Definition patchSelectedPlayer (field : string) (v : value) (a : App) : App :=
  mkApp (db a) (auth a) (userId a) (isAuthReady a) (currentView a) (players a)
    (Some (<[field := v]> (default ∅ (selectedPlayer a))))
    (isDetailOpen a) (adminIds a) (hubData a).

Definition setAdminIds (v : list jsstring) (a : App) : App :=
  mkApp (db a) (auth a) (userId a) (isAuthReady a) (currentView a) (players a)
    (selectedPlayer a) (isDetailOpen a) v (hubData a).

Definition setHubData (v : document) (a : App) : App :=
  mkApp (db a) (auth a) (userId a) (isAuthReady a) (currentView a) (players a)
    (selectedPlayer a) (isDetailOpen a) (adminIds a) v.

(** [adminIds.includes(userId)]: the list holds strings, so [null] is
    never included. *)
Definition isAdmin (a : App) : bool :=
  match userId a with
  | Some u => bool_decide (u ∈ adminIds a)
  | None => false
  end.

(** [settingsDocRef = db ? doc(db, ...) : null] is non-null. *)
Definition settingsDocRef (a : App) : bool := db a.

(** ** 1. Firebase initialisation and authentication

    What the Identity Provider does is an input: whether initialisation
    throws, the user the auth-state listener is called with, and the
    result of each sign-in strategy. *)

Inductive SignIn : Type :=
| SignedIn (currentUser : option jsstring)   (* resolves; [currentUser?.uid] *)
| SignInRejected.                            (* the promise rejects *)

Record IdentityProvider : Type := mkIdP {
  initThrows : bool;                       (* [initializeApp]/[getAuth] throws *)
  sessionUser : option jsstring;           (* uid of the existing session, if any *)
  initialAuthToken : option jsstring;      (* [__initial_auth_token], or [null] *)
  signInWithCustomToken : jsstring -> SignIn;
  signInAnonymously : SignIn
}.

(** [firebaseAuth.currentUser?.uid || 'anonymous'] *)
Definition uidOrAnonymous (currentUser : option jsstring) : jsstring :=
  match currentUser with
  | Some uid => if truthy uid then uid else js "anonymous"
  | None => js "anonymous"
  end.

(** The [if (!user) { ... }] block of the listener: the sign-in strategy
    chosen, and what it gives. *)
Definition signInIfNeeded (idp : IdentityProvider) (user : option jsstring) : SignIn :=
  match user with
  | Some uid => SignedIn (Some uid)
  | None =>
      if truthy_opt (initialAuthToken idp)
      then signInWithCustomToken idp (default [] (initialAuthToken idp))
      else signInAnonymously idp
  end.

(** The listener passed to [onAuthStateChanged]. It is an async function
    nobody awaits: when a sign-in rejects, the rest of the listener does
    not run. *)
Definition authStateListener (idp : IdentityProvider) (user : option jsstring)
    (a : App) : Outcome App :=
  match signInIfNeeded idp user with
  | SignedIn currentUser =>
      Done (setIsAuthReady true (setUserId (Some (uidOrAnonymous currentUser)) a))
  | SignInRejected => Threw "Uncaught (in promise)"
  end.

(** The component state after an un-awaited async function: a rejection
    leaves it as it was. *)
Definition settled (a : App) (o : Outcome App) : App :=
  match o with
  | Done a' => a'
  | Threw _ => a
  end.

(** The first effect. [initThrows] is the synchronous failure the
    [try]/[catch] covers. Otherwise the listener runs once with the
    current session; a sign-in that succeeds changes the auth state, and
    the listener runs again with the new user. *)
Definition authEffect (idp : IdentityProvider) (a : App) : App :=
  if initThrows idp then
    setUserId (Some (js "mock-user")) (setIsAuthReady true a)
  else
    let a1 := setAuth true (setDb true a) in
    let a2 := settled a1 (authStateListener idp (sessionUser idp) a1) in
    match sessionUser idp, signInIfNeeded idp None with
    | None, SignedIn (Some uid) => settled a2 (authStateListener idp (Some uid) a2)
    | _, _ => a2
    end.

(** ** 2. Seeding and the two subscriptions *)

(** The profile written for an identity on first contact. *)
Definition newPlayer (newPlayerId uid : jsstring) : document :=
  {[ "id" := VStr newPlayerId;
     "userId" := VStr uid;
     "name" := VStr (js "New Recruit " ++ substring0 4 uid)%list;
     "jerseyNumber" := VNum 99;
     "headshotUrl" :=
       VStr (js "https://placehold.co/100x100/60a5fa/ffffff?text=" ++ substring0 2 uid)%list;
     "role" := VStr (js "New Recruit") ]}.

(** [`mock-${index}-${Math.random().toString(36).substring(2, 9)}`];
    [rand index] is the random suffix drawn for that player. *)
Definition mockPlayerId (rand : nat -> jsstring) (index : nat) : jsstring :=
  (js "mock-" ++ js (pretty index) ++ js "-" ++ rand index)%list.

(** An async call that is not awaited: the caller does not see it throw. *)
Definition detached (c : M unit) : M unit := tryCatch c (fun _ => ret tt).

(** [MOCK_PLAYERS.forEach(async (player, index) => { ... })] *)
Fixpoint seedMockPlayers (rand : nat -> jsstring) (index : nat)
    (ps : list document) : M unit :=
  match ps with
  | [] => ret tt
  | player :: rest =>
      let mid := mockPlayerId rand index in
      detached (setDoc (PlayerDoc mid)
                  (<["id" := VStr mid]> (<["userId" := VStr mid]> player))) ;;
      seedMockPlayers rand (S index) rest
  end.

(** The body of [if (hubDoc.empty) { ... }]: the settings document with
    the first administrator, then the example profiles. *)
Definition seedInitialData (loadTime uid : jsstring) (rand : nat -> jsstring) : M unit :=
  setDoc HubDoc (<[ADMIN_IDS_FIELD := VArr [uid]]> (INITIAL_HUB_DATA loadTime)) ;;
  seedMockPlayers rand 0 MOCK_PLAYERS.

(** [ensureAdminAndSeed]. [newPlayerId] is the id the store assigns in
    [doc(playersCollectionRef)]. *)
Definition ensureAdminAndSeed (loadTime uid newPlayerId : jsstring)
    (rand : nat -> jsstring) : M unit :=
  tryCatch
    (userDocs <- getDocsWhereUserId uid ;;
     if snapEmpty userDocs then
       setDoc (PlayerDoc newPlayerId) (newPlayer newPlayerId uid) ;;
       hubDoc <- getDocsPlayers ;;
       if snapEmpty hubDoc then seedInitialData loadTime uid rand
       else ret tt
     else ret tt)
    (fun _ => consoleError "Error ensuring user or seeding data:").

(** The roster listener: [{ id: doc.id, ...doc.data() }] for each
    document; a stored [id] field takes precedence over the document id. *)
Definition rosterOfSnapshot (q : QuerySnapshot) : list document :=
  map (fun kd => kd.2 ∪ {[ "id" := VStr kd.1 ]}) q.

Definition onPlayersSnapshot (q : QuerySnapshot) (a : App) : App :=
  setPlayers (rosterOfSnapshot q) a.

(** [data[ADMIN_IDS_FIELD] || []]. The program only ever writes arrays
    to this field; anything else is read as no administrators. *)
Definition adminIdsField (data : document) : list jsstring :=
  match data !! ADMIN_IDS_FIELD with
  | Some (VArr l) => l
  | _ => []
  end.

(** The settings listener; [None] is a snapshot that does not exist. *)
Definition onHubSnapshot (loadTime : jsstring) (docSnapshot : option document)
    (a : App) : M App :=
  match docSnapshot with
  | Some data => ret (setHubData data (setAdminIds (adminIdsField data) a))
  | None =>
      consoleWarn "Team settings document not found." ;;
      ret (setHubData (INITIAL_HUB_DATA loadTime) (setAdminIds [] a))
  end.

(** One delivery of each subscription, from the store as it is. *)
Definition deliverRoster (a : App) : M App :=
  q <- getDocsPlayers ;; ret (onPlayersSnapshot q a).

Definition deliverSettings (loadTime : jsstring) (a : App) : M App :=
  s <- getStore ;; onHubSnapshot loadTime (settingsDoc s) a.

(** The second effect: nothing before identity bootstrap is done. The
    source starts [ensureAdminAndSeed] without awaiting it and attaches
    both listeners; this is the state once seeding has finished and each
    listener has received the snapshot of the store as it then is. *)
Definition dataEffect (loadTime newPlayerId : jsstring) (rand : nat -> jsstring)
    (a : App) : M App :=
  if negb (db a) || negb (isAuthReady a) || negb (truthy_opt (userId a)) then ret a
  else
    ensureAdminAndSeed loadTime (default [] (userId a)) newPlayerId rand ;;
    a1 <- deliverRoster a ;;
    deliverSettings loadTime a1.

(** ** Profile self-edit *)

(** [p.userId === userId] *)
Definition ownedBy (uid : option jsstring) (p : document) : bool :=
  match uid with
  | Some u => bool_decide (p !! "userId" = Some (VStr u))
  | None => bool_decide (p !! "userId" = Some VNull)
  end.

(** [doc(db, PLAYERS_COLLECTION, userDoc.id)]: throws unless the id is a
    non-empty string. *)
Definition playerDocRef (idv : option value) : M docRef :=
  match idv with
  | Some (VStr i) => if truthy i then ret (PlayerDoc i) else throw "invalid-argument"
  | _ => throw "invalid-argument"
  end.

Definition handleUpdateProfile (updates : document) (a : App) : M unit :=
  if negb (db a) || negb (truthy_opt (userId a)) then ret tt
  else
    tryCatch
      (match find (ownedBy (userId a)) (players a) with
       | Some userDoc =>
           docRef <- playerDocRef (userDoc !! "id") ;;
           updateDoc docRef (Put <$> updates)
       | None => consoleWarn "Current user document not found."
       end)
      (fun _ => consoleError "Error updating profile:").

(** [handleJerseyUpdate] of [PlayerDetail]; [jerseyInput] is the text of
    the input field (a number held there is read through its decimal
    text). [setIsUpdating] only drives the [disabled] state of the
    buttons and is left out, here and in [handleNameUpdate]. *)
Definition handleJerseyUpdate (jerseyInput : jsstring) (a : App) : M App :=
  let newJersey := parseInt jerseyInput in
  if jerseyInRange newJersey then
    let n := default 0 newJersey in
    handleUpdateProfile {[ "jerseyNumber" := VNum n ]} a ;;
    ret (patchSelectedPlayer "jerseyNumber" (VNum n) a)
  else
    consoleWarn "Invalid jersey number. Must be between 0 and 99." ;;
    ret a.

(** [handleNameUpdate] of [PlayerDetail]. *)
Definition handleNameUpdate (nameInput : jsstring) (a : App) : M App :=
  let newName := trim nameInput in
  if (1 <? length newName)%nat then
    handleUpdateProfile {[ "name" := VStr newName ]} a ;;
    ret (patchSelectedPlayer "name" (VStr newName) a)
  else
    consoleWarn "Name cannot be empty." ;;
    ret a.

(** The [disabled] attribute of the Save Name button. *)
Definition saveNameDisabled (isUpdating : bool) (nameInput : jsstring) (a : App) : bool :=
  isUpdating
  || bool_decide (Some (VStr (trim nameInput)) = default ∅ (selectedPlayer a) !! "name")
  || bool_decide (trim nameInput = []).

(** ** Administrator management *)

Definition handleAddAdmin (id : jsstring) (a : App) : M unit :=
  if negb (settingsDocRef a) || negb (truthy id) then ret tt
  else
    tryCatch
      (updateDoc HubDoc {[ ADMIN_IDS_FIELD := ArrayUnion id ]})
      (fun _ => consoleError "Error adding admin:").

Definition handleRemoveAdmin (id : jsstring) (a : App) : M unit :=
  if negb (settingsDocRef a) || negb (truthy id) then ret tt
  else
    tryCatch
      (updateDoc HubDoc {[ ADMIN_IDS_FIELD := ArrayRemove id ]})
      (fun _ => consoleError "Error removing admin:").

(** [handleSaveMessage] of [CoachMessageEditor]; [now] is
    [new Date().toISOString()]. *)
Definition handleSaveMessage (messageInput now : jsstring) (a : App) : M unit :=
  let newMessage := trim messageInput in
  if (length newMessage =? 0)%nat || negb (settingsDocRef a) then ret tt
  else
    tryCatch
      (setDocMerge HubDoc
         {[ "coachsMessage" := VStr newMessage;
            "timestamp" := VStr now;
            "lastEditor" := from_option VStr VNull (userId a) ]} ;;
       consoleLog "Coach's message updated successfully.")
      (fun _ => consoleError "Error updating coach's message:").

(** The ids of [AdminPanel]'s list that get a remove button
    ([id !== userId]); each button calls [handleRemoveAdmin(id)]. *)
Definition removeButtons (a : App) : list jsstring :=
  List.filter (fun id => negb (bool_decide (Some id = userId a))) (adminIds a).

(** [{isAdmin && <AdminPanel />}]: the remove controls on screen. *)
Definition adminPanelRemoveControls (a : App) : list jsstring :=
  if isAdmin a then removeButtons a else [].

(** [PlayerCard]'s button: [setSelectedPlayer(player); setIsDetailOpen(true)]. *)
Definition openDetail (player : document) (a : App) : App :=
  mkApp (db a) (auth a) (userId a) (isAuthReady a) (currentView a) (players a)
    (Some player) true (adminIds a) (hubData a).

(** ** A concrete session

    An anonymous sign-in that gives the identity [user-1], against an
    empty store; the session opens its own profile. *)

Definition sampleIdP : IdentityProvider :=
  mkIdP false None None (fun _ => SignInRejected) (SignedIn (Some (js "user-1"))).

Definition sampleTime : jsstring := js "2024-10-01T00:00:00.000Z".

Definition sampleBoot : Outcome App * World :=
  dataEffect sampleTime (js "p1") (fun _ => js "abcdefg")
    (authEffect sampleIdP (initialApp sampleTime)) (mkWorld emptyStore []).

Definition sampleWorld : World := sampleBoot.2.

Definition sampleApp : App :=
  let a := settled (initialApp sampleTime) sampleBoot.1 in
  openDetail (default ∅ (head (players a))) a.

(** The session of [user-1], once it sees itself on the list. *)
Definition sampleAdminApp : App := setAdminIds [js "user-1"] sampleApp.

(** A second session, of [user-2], whose view still shows both
    administrators. *)
Definition sampleSecondAdminApp : App :=
  setAdminIds [js "user-1"; js "user-2"] (setUserId (Some (js "user-2")) sampleApp).

(** ** Observations *)

(** The remote writes a computation issues when started in [w]. *)
Definition issuedBy {A} (c : M A) (w : World) : list Event :=
  remoteWrites (drop (length (trace w)) (trace (c w).2)).

(** The store a computation leaves behind. *)
Definition storeAfter {A} (c : M A) (w : World) : Store := store (c w).2.

(** The administrator list as the settings subscription would deliver it. *)
Definition adminIdsOfStore (s : Store) : list jsstring :=
  from_option adminIdsField [] (settingsDoc s).

(** The query of step 1 of seeding, on a store. *)
Definition profilesOwnedBy (uid : jsstring) (s : Store) : QuerySnapshot :=
  List.filter (fun kd => bool_decide (kd.2 !! "userId" = Some (VStr uid)))
    (map_to_list (playersColl s)).

(** The input parses, with the source's [parseInt], to an integer of
    [0, 99]. *)
Definition parsesInRange (jerseyInput : jsstring) : Prop :=
  exists n : Z, parseInt jerseyInput = Some n /\ 0 <= n <= 99.

(** Following the spec's words, for comparison with [parseInt]: the
    input is an integer numeral, that is, white space around it aside,
    an optional sign followed by decimal digits and nothing else; its
    value. *)
Definition isDigitb (c : N) : bool := ((48 <=? c) && (c <=? 57))%N.

Definition specIntegerNumeral (s : jsstring) : option Z :=
  let '(sign, body) := splitSign (trim s) in
  if forallb isDigitb body && negb (bool_decide (body = []))
  then Some (sign * decimalValue (digitsPrefix body))
  else None.

(** Following the spec's words: the input "parses as an integer in
    [0, 99]". *)
Definition specJerseyValid (s : jsstring) : bool :=
  match specIntegerNumeral s with
  | Some n => ((0 <=? n) && (n <=? 99))%Z
  | None => false
  end.

(** The states of the store that the administrator operations can
    reach once it is seeded, when a removal is only issued while some
    other administrator is on the list. *)
Inductive adminReachable : World -> Prop :=
| reach_seed (loadTime uid : jsstring) (rand : nat -> jsstring) (w0 : World) :
    adminReachable (seedInitialData loadTime uid rand w0).2
| reach_add (id : jsstring) (a : App) (w : World) :
    adminReachable w -> adminReachable (handleAddAdmin id a w).2
| reach_save (messageInput now : jsstring) (a : App) (w : World) :
    adminReachable w -> adminReachable (handleSaveMessage messageInput now a w).2
| reach_remove (id other : jsstring) (a : App) (w : World) :
    adminReachable w ->
    other ∈ adminIdsOfStore (store w) -> other <> id ->
    adminReachable (handleRemoveAdmin id a w).2.

(** ** The rest of the interaction layer *)

(** [isCurrentUser] of [PlayerDetail]: [selectedPlayer.userId === userId]. *)
Definition isCurrentUser (a : App) : bool :=
  ownedBy (userId a) (default ∅ (selectedPlayer a)).

(** [handlePhotoUpload] of [PlayerDetail]. [color] is the text
    [Math.floor(Math.random()*16777215).toString(16)] of the random draw.
    [selectedPlayer.name.substring] throws unless the name is a string;
    nothing in the handler catches that. *)
Definition handlePhotoUpload (color : jsstring) (a : App) : M App :=
  match default ∅ (selectedPlayer a) !! "name" with
  | Some (VStr name) =>
      let newPhotoUrl :=
        (js "https://placehold.co/100x100/" ++ color ++ js "/ffffff?text="
           ++ substring0 2 name)%list in
      handleUpdateProfile {[ "headshotUrl" := VStr newPhotoUrl ]} a ;;
      ret (patchSelectedPlayer "headshotUrl" (VStr newPhotoUrl) a)
  | _ => throw "TypeError"
  end.

(** [ToString] of an integer-valued number: its decimal digits, with a
    minus sign when negative. This is the text JS gives for every integer
    of at most 2^53 in size; for larger numbers JS prints the shortest
    digits that identify the double, and the properties below stay
    within the bound. *)
Definition numberToString (n : Z) : jsstring := js (pretty n).

(** What [parseInt] makes of the initial content of the jersey field,
    [useState(selectedPlayer.jerseyNumber)]: the stored number is turned
    into its text first. *)
Definition initialJerseyInput (a : App) : option jsstring :=
  match default ∅ (selectedPlayer a) !! "jerseyNumber" with
  | Some (VNum n) => Some (numberToString n)
  | _ => None
  end.

(** The [disabled] attribute of the Save # button. *)
Definition saveJerseyDisabled (isUpdating : bool) (jerseyInput : jsstring) (a : App) : bool :=
  isUpdating
  || match parseInt jerseyInput with
     | Some n =>
         bool_decide (default ∅ (selectedPlayer a) !! "jerseyNumber"
                      = Some (VNum (toDouble n)))
     | None => false
     end
  || bool_decide (jerseyInput = [])
  || match parseInt jerseyInput with
     | Some n => (toDouble n <? 0)%Z
     | None => false
     end.

(** The [disabled] attribute of the Save Message button of
    [CoachMessageEditor], which is rendered only under [isAdmin]. *)
Definition saveMessageDisabled (isUpdating : bool) (messageInput : jsstring) (a : App) : bool :=
  isUpdating
  || bool_decide (Some (VStr (trim messageInput)) = hubData a !! "coachsMessage").

(** The Add button of [AdminPanel]: its [disabled] attribute and its
    [onClick] (the reset of the input field is left out). *)
Definition addAdminDisabled (newAdminId : jsstring) (a : App) : bool :=
  negb (truthy newAdminId) || bool_decide (trim newAdminId ∈ adminIds a).

Definition clickAddAdmin (newAdminId : jsstring) (a : App) : M unit :=
  handleAddAdmin (trim newAdminId) a.

(** The ADMIN badge of [PlayerCard]: [adminIds.includes(player.userId)]. *)
Definition adminBadge (player : document) (a : App) : bool :=
  match player !! "userId" with
  | Some (VStr u) => bool_decide (u ∈ adminIds a)
  | _ => false
  end.

Definition setCurrentView (v : View) (a : App) : App :=
  mkApp (db a) (auth a) (userId a) (isAuthReady a) v (players a)
    (selectedPlayer a) (isDetailOpen a) (adminIds a) (hubData a).

Definition setIsDetailOpen (v : bool) (a : App) : App :=
  mkApp (db a) (auth a) (userId a) (isAuthReady a) (currentView a) (players a)
    (selectedPlayer a) v (adminIds a) (hubData a).

(** The render logic at the end of [App]: which screen is on. *)
Inductive Screen : Type :=
| LoadingScreen
| PlayerDetailScreen
| RosterListScreen
| DashboardScreen.

Definition render (a : App) : Screen :=
  if negb (isAuthReady a) then LoadingScreen
  else if isDetailOpen a && bool_decide (is_Some (selectedPlayer a)) then PlayerDetailScreen
  else match currentView a with
       | Roster => RosterListScreen
       | Dashboard => DashboardScreen
       end.

(** The controls on screen whose handler writes to the store. (The
    detail view of a profile whose name is not a string does not render
    at all; listing its editors only adds clicks.) *)
Inductive Control : Type :=
| UploadPhotoButton
| SaveNameButton
| SaveJerseyButton
| SaveMessageButton
| AddAdminButton
| RemoveAdminButton (id : jsstring).

Definition controls (a : App) : list Control :=
  match render a with
  | LoadingScreen => []
  | PlayerDetailScreen =>
      if isCurrentUser a then [UploadPhotoButton; SaveNameButton; SaveJerseyButton] else []
  | RosterListScreen => []
  | DashboardScreen =>
      (if isAdmin a then [SaveMessageButton] else [])
      ++ (if isAdmin a then AddAdminButton :: map RemoveAdminButton (removeButtons a) else [])
  end.

(** What a click on a control runs; [input] is the text of its field,
    [aux] the random colour or the current time where one is used. *)
Definition clickControl (c : Control) (input aux : jsstring) (a : App) : M App :=
  match c with
  | UploadPhotoButton => handlePhotoUpload aux a
  | SaveNameButton => handleNameUpdate input a
  | SaveJerseyButton => handleJerseyUpdate input a
  | SaveMessageButton => handleSaveMessage input aux a ;; ret a
  | AddAdminButton => clickAddAdmin input a ;; ret a
  | RemoveAdminButton id => handleRemoveAdmin id a ;; ret a
  end.

(** The state of one session and the world after an async handler; a
    handler that throws leaves the component state as it was. *)
Definition afterHandler (c : M App) (a : App) (w : World) : App * World :=
  (settled a (c w).1, (c w).2).

(** What can happen to one session: a delivery of either subscription, a
    run of the auth-state listener (sign-out and sign-in included), the
    seeding routine once identity bootstrap is done, navigation, and a
    click on a control that is on screen. The [disabled] attributes are
    not consulted: every click the page lets through is among these. *)
Inductive sessionStep : App * World -> App * World -> Prop :=
| step_roster (a : App) (w : World) :
    sessionStep (a, w) (afterHandler (deliverRoster a) a w)
| step_settings (loadTime : jsstring) (a : App) (w : World) :
    sessionStep (a, w) (afterHandler (deliverSettings loadTime a) a w)
| step_auth (idp : IdentityProvider) (user : option jsstring) (a : App) (w : World) :
    sessionStep (a, w) (settled a (authStateListener idp user a), w)
| step_seed (loadTime uid newPlayerId : jsstring) (rand : nat -> jsstring)
    (a : App) (w : World) :
    db a = true -> isAuthReady a = true -> userId a = Some uid -> truthy uid = true ->
    sessionStep (a, w) (a, (ensureAdminAndSeed loadTime uid newPlayerId rand w).2)
| step_view (v : View) (a : App) (w : World) :
    sessionStep (a, w) (setCurrentView v a, w)
| step_open (player : document) (a : App) (w : World) :
    player ∈ players a -> sessionStep (a, w) (openDetail player a, w)
| step_close (a : App) (w : World) :
    sessionStep (a, w) (setIsDetailOpen false a, w)
| step_click (c : Control) (input aux : jsstring) (a : App) (w : World) :
    c ∈ controls a ->
    sessionStep (a, w) (afterHandler (clickControl c input aux a) a w).

(** Several sessions on one store: a new session starts from the
    initial state with its identity bootstrap, or one session moves. *)
Inductive deploymentStep : list App * World -> list App * World -> Prop :=
| step_join (idp : IdentityProvider) (loadTime : jsstring) (sessions : list App)
    (w : World) :
    deploymentStep (sessions, w)
      ((sessions ++ [authEffect idp (initialApp loadTime)])%list, w)
| step_session (i : nat) (a a' : App) (sessions : list App) (w w' : World) :
    sessions !! i = Some a -> sessionStep (a, w) (a', w') ->
    deploymentStep (sessions, w) (<[i := a']> sessions, w').

(** The session can edit: the store handle and the identity are set, and
    [p], with document id [pid], is the first profile of the local view
    that the identity owns. *)
Definition ownProfileInView (a : App) (p : document) (pid : jsstring) : Prop :=
  db a = true /\ truthy_opt (userId a) = true
  /\ find (ownedBy (userId a)) (players a) = Some p
  /\ p !! "id" = Some (VStr pid) /\ truthy pid = true.

(** The settings document does not exist and no session has anyone on
    its administrator list. *)
Definition noAdminYet (st : list App * World) : Prop :=
  settingsDoc (store st.2) = None /\ Forall (fun a => adminIds a = []) st.1.

(** A code unit that [parseInt] reads as a decimal digit. *)
Definition isDigit (c : N) : Prop := exists d : Z, digitVal c = Some d.

(** * Properties *)

(** ** The string functions and the store, on examples *)

Example parseInt_42 : parseInt (js " 42") = Some 42.
Proof. reflexivity. Qed.

Example parseInt_100 : parseInt (js "100") = Some 100.
Proof. reflexivity. Qed.

Example parseInt_neg : parseInt (js "-5") = Some (-5).
Proof. reflexivity. Qed.

Example parseInt_prefix : parseInt (js "12abc") = Some 12.
Proof. reflexivity. Qed.

Example parseInt_nan : parseInt (js "abc") = None.
Proof. reflexivity. Qed.

Example parseInt_blank : parseInt (js "") = None.
Proof. reflexivity. Qed.

Example trim_example : trim (js "  Jo  ") = js "Jo".
Proof. reflexivity. Qed.

Example mockPlayerId_example :
  mockPlayerId (fun _ => js "k3j9x2a") 2 = js "mock-2-k3j9x2a".
Proof. reflexivity. Qed.

Example store_computes :
  (setDoc (PlayerDoc (js "a")) {[ "userId" := VStr (js "u") ]} ;;
   q <- getDocsWhereUserId (js "u") ;; ret (snapEmpty q)) (mkWorld emptyStore [])
  = (Done false,
     mkWorld (mkStore {[ js "a" := {[ "userId" := VStr (js "u") ]} ]} None)
       [SetDoc (PlayerDoc (js "a")) {[ "userId" := VStr (js "u") ]}]).
Proof. vm_compute. reflexivity. Qed.

(** ** The monad and the store *)

Ltac run :=
  unfold issuedBy, storeAfter, setDoc, setDocMerge, updateDoc, consoleWarn,
    consoleError, consoleLog, getDocsPlayers, getDocsWhereUserId, detached,
    tryCatch, bind, ret, throw, emit, getStore, setStore in *;
  cbn [fst snd store trace readDoc putDoc] in *.

Lemma issued_suffix (t extra : list Event) :
  remoteWrites (drop (length t) (t ++ extra)) = remoteWrites extra.
Proof. by rewrite drop_app_length. Qed.

Lemma issued_nothing (t : list Event) :
  remoteWrites (drop (length t) t) = [].
Proof. by rewrite drop_all. Qed.

Lemma snapEmpty_insert (m : gmap jsstring document) (k : jsstring) (d : document) :
  snapEmpty (map_to_list (<[k := d]> m)) = false.
Proof.
  destruct (map_to_list (<[k := d]> m)) eqn:E; [|done].
  apply map_to_list_empty_iff in E.
  by apply insert_non_empty in E.
Qed.

Lemma applyUpdates_singleton (k : string) (fw : fieldWrite) (d : document) :
  applyUpdates {[ k := fw ]} d = <[k := applyFieldWrite fw (d !! k)]> d.
Proof.
  apply map_eq; intros i. unfold applyUpdates.
  rewrite lookup_merge. destruct (decide (k = i)) as [->|Hne].
  - rewrite lookup_singleton_eq, lookup_insert_eq. by destruct (d !! i).
  - rewrite lookup_singleton_ne, lookup_insert_ne by done. by destruct (d !! i).
Qed.

Lemma seedMockPlayers_settings (rand : nat -> jsstring) (ps : list document) :
  forall (index : nat) (w : World),
    settingsDoc (store (seedMockPlayers rand index ps w).2) = settingsDoc (store w).
Proof.
  induction ps as [|player rest IH]; intros index w; [done|].
  cbn [seedMockPlayers]. run. by rewrite IH.
Qed.

Lemma seedInitialData_settings (loadTime uid : jsstring) (rand : nat -> jsstring) (w : World) :
  settingsDoc (store (seedInitialData loadTime uid rand w).2)
  = Some (<[ADMIN_IDS_FIELD := VArr [uid]]> (INITIAL_HUB_DATA loadTime)).
Proof.
  unfold seedInitialData. run. by rewrite seedMockPlayers_settings.
Qed.

(** What [ensureAdminAndSeed] does, in one equation: the probe that
    follows the creation of the own profile sees that profile, so the
    branch that seeds is never taken. *)
Lemma ensureAdminAndSeed_run (loadTime uid newPlayerId : jsstring)
    (rand : nat -> jsstring) (w : World) :
  ensureAdminAndSeed loadTime uid newPlayerId rand w =
  if snapEmpty (profilesOwnedBy uid (store w)) then
    (Done tt,
     mkWorld (mkStore (<[newPlayerId := newPlayer newPlayerId uid]> (playersColl (store w)))
                (settingsDoc (store w)))
       (trace w ++ [SetDoc (PlayerDoc newPlayerId) (newPlayer newPlayerId uid)]))
  else (Done tt, w).
Proof.
  unfold ensureAdminAndSeed, profilesOwnedBy. run.
  destruct (snapEmpty _); [|done].
  cbn. by rewrite snapEmpty_insert.
Qed.

(** ** Seeding *)

(** C3 (the code departs from the claim). Steps 1 and 2 are as claimed:
    a profile owned by the identity means no write at all, otherwise the
    owning profile is created. Step 3 is not: the probe of the whole
    collection runs after the own profile was written and therefore never
    finds it empty, so on every store, the empty one included,
    [ensureAdminAndSeed] leaves the settings document as it was and
    issues no write other than the creation of the own profile. *)
Theorem ensureAdminAndSeed_never_seeds (loadTime uid newPlayerId : jsstring)
    (rand : nat -> jsstring) (w : World) :
  let c := ensureAdminAndSeed loadTime uid newPlayerId rand in
  settingsDoc (storeAfter c w) = settingsDoc (store w)
  /\ issuedBy c w =
       (if snapEmpty (profilesOwnedBy uid (store w))
        then [SetDoc (PlayerDoc newPlayerId) (newPlayer newPlayerId uid)]
        else [])
  /\ storeAfter c (mkWorld emptyStore [])
     = mkStore {[ newPlayerId := newPlayer newPlayerId uid ]} None.
Proof.
  cbn zeta. unfold issuedBy, storeAfter.
  rewrite !ensureAdminAndSeed_run.
  split; [|split].
  - by destruct (snapEmpty _).
  - destruct (snapEmpty _); cbn [snd trace].
    + by rewrite issued_suffix.
    + by rewrite issued_nothing.
  - unfold profilesOwnedBy. cbn [store emptyStore playersColl].
    rewrite map_to_list_empty. cbn. by rewrite insert_empty.
Qed.

Example ensureAdminAndSeed_empty_store :
  let w := ensureAdminAndSeed (js "2024-10-01T00:00:00.000Z") (js "user-1") (js "p1")
             (fun _ => js "abcdefg") (mkWorld emptyStore []) in
  settingsDoc (store w.2) = None
  /\ adminIdsOfStore (store w.2) = []
  /\ remoteWrites (trace w.2)
     = [SetDoc (PlayerDoc (js "p1")) (newPlayer (js "p1") (js "user-1"))].
Proof. vm_compute. done. Qed.

(** The seeding branch on its own: the settings document, then the three
    example profiles under their synthetic identities. *)
Example seedInitialData_writes :
  map (fun e => match e with SetDoc r _ => Some r | _ => None end)
    (issuedBy (seedInitialData sampleTime (js "user-1") (fun _ => js "abcdefg"))
       (mkWorld emptyStore []))
  = [Some HubDoc; Some (PlayerDoc (js "mock-0-abcdefg"));
     Some (PlayerDoc (js "mock-1-abcdefg")); Some (PlayerDoc (js "mock-2-abcdefg"))].
Proof. vm_compute. reflexivity. Qed.

Lemma newPlayer_with_id (newPlayerId uid : jsstring) :
  newPlayer newPlayerId uid ∪ {[ "id" := VStr newPlayerId ]} = newPlayer newPlayerId uid.
Proof.
  apply map_eq; intros i. rewrite lookup_union.
  destruct (decide (i = "id")) as [->|Hne].
  - rewrite lookup_singleton_eq. unfold newPlayer. by simplify_map_eq.
  - rewrite lookup_singleton_ne by done. by destruct (newPlayer _ _ !! i).
Qed.

(** C9. When no profile is owned by the identity, the profile that
    [ensureAdminAndSeed] creates is delivered by the roster subscription
    with [userId] equal to the identity, [jerseyNumber] 99, the name
    "New Recruit " followed by the first four code units of the identifier
    (so never empty) and the placeholder avatar built from its first two. *)
Theorem first_contact_profile_observed (loadTime uid newPlayerId : jsstring)
    (rand : nat -> jsstring) (a : App) (w : World) :
  snapEmpty (profilesOwnedBy uid (store w)) = true ->
  let w1 := (ensureAdminAndSeed loadTime uid newPlayerId rand w).2 in
  exists (a' : App) (p : document) (name : jsstring),
    (deliverRoster a w1).1 = Done a'
    /\ p ∈ players a'
    /\ p !! "userId" = Some (VStr uid)
    /\ p !! "jerseyNumber" = Some (VNum 99)
    /\ p !! "name" = Some (VStr name)
    /\ name = (js "New Recruit " ++ substring0 4 uid)%list
    /\ name <> []
    /\ p !! "headshotUrl"
       = Some (VStr (js "https://placehold.co/100x100/60a5fa/ffffff?text="
                       ++ substring0 2 uid)%list)
    /\ p !! "role" = Some (VStr (js "New Recruit"))
    /\ p !! "id" = Some (VStr newPlayerId).
Proof.
  intros Hnone. cbn zeta. rewrite ensureAdminAndSeed_run, Hnone.
  unfold deliverRoster. run.
  eexists _, (newPlayer newPlayerId uid), _.
  split; [reflexivity|]. split.
  - cbn. unfold rosterOfSnapshot. apply list_elem_of_fmap.
    exists (newPlayerId, newPlayer newPlayerId uid). split.
    + cbn. by rewrite newPlayer_with_id.
    + apply elem_of_map_to_list. by rewrite lookup_insert_eq.
  - unfold newPlayer. repeat split; by simplify_map_eq.
Qed.

Lemma first_contact_profile_observed_witness :
  exists (a' : App) (p : document) (name : jsstring),
    (deliverRoster (initialApp (js "t0"))
       (ensureAdminAndSeed (js "t0") (js "user-1") (js "p1") (fun _ => js "abcdefg")
          (mkWorld emptyStore [])).2).1 = Done a'
    /\ p ∈ players a'
    /\ p !! "userId" = Some (VStr (js "user-1"))
    /\ p !! "jerseyNumber" = Some (VNum 99)
    /\ p !! "name" = Some (VStr name)
    /\ name = (js "New Recruit " ++ substring0 4 (js "user-1"))%list
    /\ name <> []
    /\ p !! "headshotUrl"
       = Some (VStr (js "https://placehold.co/100x100/60a5fa/ffffff?text="
                       ++ substring0 2 (js "user-1"))%list)
    /\ p !! "role" = Some (VStr (js "New Recruit"))
    /\ p !! "id" = Some (VStr (js "p1")).
Proof.
  apply (first_contact_profile_observed (js "t0") (js "user-1") (js "p1")
           (fun _ => js "abcdefg") (initialApp (js "t0")) (mkWorld emptyStore [])).
  vm_compute. reflexivity.
Defined.

(** ** Profile self-edit *)

Example sampleApp_state :
  userId sampleApp = Some (js "user-1")
  /\ isAuthReady sampleApp = true
  /\ players sampleApp = [newPlayer (js "p1") (js "user-1")]
  /\ selectedPlayer sampleApp = Some (newPlayer (js "p1") (js "user-1"))
  /\ adminIds sampleApp = []
  /\ store sampleWorld = mkStore {[ js "p1" := newPlayer (js "p1") (js "user-1") ]} None.
Proof. repeat split; vm_compute; reflexivity. Qed.

Lemma bind_done {A B} (c : M A) (k : A -> M B) (w : World) (x : A) :
  (c w).1 = Done x -> bind c k w = k x (c w).2.
Proof. unfold bind. destruct (c w) as [[y|e] w']; cbn; congruence. Qed.

(** [handleUpdateProfile] swallows every error: it completes with
    [undefined] on every path. *)
Lemma handleUpdateProfile_done (updates : document) (a : App) (w : World) :
  (handleUpdateProfile updates a w).1 = Done tt.
Proof.
  unfold handleUpdateProfile.
  destruct (negb (db a) || negb (truthy_opt (userId a))); [done|].
  destruct (find _ _) as [p|]; [|done].
  unfold playerDocRef. run.
  destruct (p !! "id") as [[|i| |]|]; try done.
  destruct (truthy i); [|done]. cbn.
  by destruct (playersColl (store w) !! i).
Qed.

Lemma handleUpdateProfile_found (updates : document) (a : App) (w : World)
    (p : document) (pid : jsstring) :
  db a = true -> truthy_opt (userId a) = true ->
  find (ownedBy (userId a)) (players a) = Some p ->
  p !! "id" = Some (VStr pid) -> truthy pid = true ->
  issuedBy (handleUpdateProfile updates a) w
  = [UpdateDoc (PlayerDoc pid) (Put <$> updates)].
Proof.
  intros Hdb Hu Hfind Hid Hpid.
  unfold handleUpdateProfile. rewrite Hdb, Hu, Hfind. cbn [negb orb].
  unfold playerDocRef. rewrite Hid, Hpid. run. cbn.
  destruct (playersColl (store w) !! pid); cbn;
    rewrite <- ?(assoc_L (++)); by rewrite issued_suffix.
Qed.

Lemma handleUpdateProfile_absent (updates : document) (a : App) (w : World) :
  find (ownedBy (userId a)) (players a) = None ->
  handleUpdateProfile updates a w =
  (Done tt,
   if negb (db a) || negb (truthy_opt (userId a)) then w
   else mkWorld (store w) (trace w ++ [ConsoleWarn "Current user document not found."])).
Proof.
  intros Hfind. unfold handleUpdateProfile. rewrite Hfind.
  by destruct (negb (db a) || negb (truthy_opt (userId a))).
Qed.

Lemma jerseyInRange_spec (jerseyInput : jsstring) :
  jerseyInRange (parseInt jerseyInput) = true <-> parsesInRange jerseyInput.
Proof.
  unfold parsesInRange, jerseyInRange.
  destruct (parseInt jerseyInput) as [n|].
  - rewrite andb_true_iff, Z.leb_le, Z.ltb_lt. split.
    + intros [? ?]. exists n. split; [done|lia].
    + intros (m & [= <-] & ?). lia.
  - split; [done|]. by intros (m & ? & ?).
Qed.

Lemma handleJerseyUpdate_accepted (jerseyInput : jsstring) (a : App) (w : World) (n : Z) :
  parseInt jerseyInput = Some n -> 0 <= n <= 99 ->
  handleJerseyUpdate jerseyInput a w
  = (Done (patchSelectedPlayer "jerseyNumber" (VNum n) a),
     (handleUpdateProfile {[ "jerseyNumber" := VNum n ]} a w).2).
Proof.
  intros Hn Hrange.
  assert (Hguard : jerseyInRange (parseInt jerseyInput) = true).
  { apply jerseyInRange_spec. by exists n. }
  unfold handleJerseyUpdate. rewrite Hguard, Hn. cbn [default from_option].
  by rewrite (bind_done _ _ _ _ (handleUpdateProfile_done _ a w)).
Qed.

Lemma handleJerseyUpdate_rejected (jerseyInput : jsstring) (a : App) (w : World) :
  ~ parsesInRange jerseyInput ->
  handleJerseyUpdate jerseyInput a w
  = (Done a,
     mkWorld (store w)
       (trace w ++ [ConsoleWarn "Invalid jersey number. Must be between 0 and 99."])).
Proof.
  intros Hno.
  assert (Hguard : jerseyInRange (parseInt jerseyInput) = false).
  { destruct (jerseyInRange (parseInt jerseyInput)) eqn:E; [|done].
    by apply jerseyInRange_spec in E. }
  unfold handleJerseyUpdate. by rewrite Hguard.
Qed.










Example specJerseyValid_examples :
  specJerseyValid (js "42") = true /\ specJerseyValid (js " 07 ") = true
  /\ specJerseyValid (js "+5") = true /\ specJerseyValid (js "100") = false
  /\ specJerseyValid (js "-1") = false /\ specJerseyValid (js "") = false.
Proof. repeat split; vm_compute; reflexivity. Qed.

Lemma handleNameUpdate_blank_rejected (nameInput : jsstring) (a : App) (w : World) :
  trim nameInput = [] -> issuedBy (handleNameUpdate nameInput a) w = [].
Proof.
  intros Hblank. unfold handleNameUpdate. rewrite Hblank.
  cbn [length Nat.ltb Nat.leb]. run.
  by rewrite issued_suffix.
Qed.

(** What the guard [newName.length > 1] rejects: every name of at most
    one code unit after trimming. *)
Lemma handleNameUpdate_short_rejected (nameInput : jsstring) (a : App) (w : World) :
  (length (trim nameInput) <= 1)%nat ->
  handleNameUpdate nameInput a w
  = (Done a, mkWorld (store w) (trace w ++ [ConsoleWarn "Name cannot be empty."])).
Proof.
  intros Hlen. unfold handleNameUpdate.
  assert (Hguard : (1 <? length (trim nameInput))%nat = false) by (apply Nat.ltb_ge; lia).
  by rewrite Hguard.
Qed.

Lemma handleNameUpdate_two_or_more_accepted (nameInput : jsstring) (a : App)
    (w : World) (p : document) (pid : jsstring) :
  (2 <= length (trim nameInput))%nat ->
  db a = true -> truthy_opt (userId a) = true ->
  find (ownedBy (userId a)) (players a) = Some p ->
  p !! "id" = Some (VStr pid) -> truthy pid = true ->
  issuedBy (handleNameUpdate nameInput a) w
  = [UpdateDoc (PlayerDoc pid) {[ "name" := Put (VStr (trim nameInput)) ]}].
Proof.
  intros Hlen Hdb Hu Hfind Hid Hpid. unfold handleNameUpdate, issuedBy.
  assert (Hguard : (1 <? length (trim nameInput))%nat = true) by (apply Nat.ltb_lt; lia).
  rewrite Hguard.
  rewrite (bind_done _ _ _ _ (handleUpdateProfile_done _ a w)). unfold ret. cbn [snd].
  pose proof (handleUpdateProfile_found {[ "name" := VStr (trim nameInput) ]} a w p pid
                Hdb Hu Hfind Hid Hpid) as Hiss.
  unfold issuedBy in Hiss. rewrite Hiss. by rewrite map_fmap_singleton.
Qed.

(** C2 (the code departs from the claim). The guard of
    [handleNameUpdate] is [newName.length > 1], so the name "A", which is
    not empty after trimming and for which the Save Name button is
    enabled, is rejected in every session and every store: no write is
    issued, nothing changes, and "Name cannot be empty." is logged. *)
Theorem handleNameUpdate_rejects_single_character (a : App) (w : World) :
  trim (js "A") = js "A"
  /\ js "A" <> []
  /\ saveNameDisabled false (js "A") sampleApp = false
  /\ issuedBy (handleNameUpdate (js "A") a) w = []
  /\ handleNameUpdate (js "A") a w
     = (Done a, mkWorld (store w) (trace w ++ [ConsoleWarn "Name cannot be empty."])).
Proof.
  split; [reflexivity|]. split; [done|]. split; [by vm_compute|].
  unfold handleNameUpdate.
  change (1 <? length (trim (js "A")))%nat with false.
  run. by rewrite issued_suffix.
Qed.

(** C7, as the code has it. When no profile owned by the session's
    identity is in the local view, [handleUpdateProfile] issues no remote
    write and leaves the store alone; it logs the warning "Current user
    document not found." (when the store handle and the identity are set)
    and completes normally, with [undefined], as it does on success. *)
Theorem handleUpdateProfile_not_found_logs_only (updates : document) (a : App)
    (w : World) :
  find (ownedBy (userId a)) (players a) = None ->
  let c := handleUpdateProfile updates a in
  issuedBy c w = []
  /\ storeAfter c w = store w
  /\ (c w).1 = Done tt
  /\ (db a = true -> truthy_opt (userId a) = true ->
      trace (c w).2 = (trace w ++ [ConsoleWarn "Current user document not found."])%list).
Proof.
  intros Hfind. cbn zeta. unfold issuedBy, storeAfter.
  rewrite (handleUpdateProfile_absent updates a w Hfind). cbn [fst snd].
  destruct (negb (db a) || negb (truthy_opt (userId a))) eqn:E; cbn [trace store].
  - rewrite issued_nothing. repeat split; try done.
    intros Hdb Hu. by rewrite Hdb, Hu in E.
  - rewrite issued_suffix. done.
Qed.

Lemma handleUpdateProfile_not_found_logs_only_witness :
  let a := setPlayers [] sampleApp in
  let c := handleUpdateProfile {[ "jerseyNumber" := VNum 7 ]} a in
  issuedBy c sampleWorld = []
  /\ storeAfter c sampleWorld = store sampleWorld
  /\ (c sampleWorld).1 = Done tt
  /\ (db a = true -> truthy_opt (userId a) = true ->
      trace (c sampleWorld).2
      = (trace sampleWorld ++ [ConsoleWarn "Current user document not found."])%list).
Proof.
  apply (handleUpdateProfile_not_found_logs_only {[ "jerseyNumber" := VNum 7 ]}
           (setPlayers [] sampleApp) sampleWorld).
  reflexivity.
Defined.

(** C7, as stated, fails: nothing reaches the caller. In a session whose
    profile is missing from the local view the call completes exactly as
    the successful call does, and the caller, [handleJerseyUpdate], goes
    on to set the optimistic copy although no write was issued. *)
Lemma handleUpdateProfile_not_found_not_surfaced :
  let absent := setPlayers [] sampleApp in
  let updates : document := {[ "jerseyNumber" := VNum 7 ]} in
  find (ownedBy (userId absent)) (players absent) = None
  /\ find (ownedBy (userId sampleApp)) (players sampleApp)
     = Some (newPlayer (js "p1") (js "user-1"))
  /\ (handleUpdateProfile updates absent sampleWorld).1 = Done tt
  /\ (handleUpdateProfile updates absent sampleWorld).1
     = (handleUpdateProfile updates sampleApp sampleWorld).1
  /\ issuedBy (handleJerseyUpdate (js "7") absent) sampleWorld = []
  /\ (handleJerseyUpdate (js "7") absent sampleWorld).1
     = Done (patchSelectedPlayer "jerseyNumber" (VNum 7) absent).
Proof. vm_compute. done. Qed.

(** ** Administrator management *)

Lemma arrayUnion_idempotent (x : jsstring) (l : list jsstring) :
  arrayUnion x (arrayUnion x l) = arrayUnion x l.
Proof.
  unfold arrayUnion. destruct (bool_decide (x ∈ l)) eqn:E.
  - by rewrite E.
  - rewrite bool_decide_eq_true_2; [done|]. set_solver.
Qed.

Lemma arrayUnion_present (x : jsstring) (l : list jsstring) :
  x ∈ l -> arrayUnion x l = l.
Proof. intros Hin. unfold arrayUnion. by rewrite bool_decide_eq_true_2. Qed.

Lemma arrayUnion_nonempty (x : jsstring) (l : list jsstring) :
  arrayUnion x l <> [].
Proof.
  unfold arrayUnion. case_bool_decide as Hin.
  - intros ->. by apply not_elem_of_nil in Hin.
  - by destruct l.
Qed.

Lemma arrayRemove_keeps (x other : jsstring) (l : list jsstring) :
  other ∈ l -> other <> x -> other ∈ arrayRemove x l.
Proof. intros Hin Hne. unfold arrayRemove. by apply list_elem_of_filter. Qed.

Lemma handleAddAdmin_run (id : jsstring) (a : App) (w : World) :
  handleAddAdmin id a w =
  if negb (settingsDocRef a) || negb (truthy id) then (Done tt, w)
  else
    let u : gmap string fieldWrite := {[ ADMIN_IDS_FIELD := ArrayUnion id ]} in
    match settingsDoc (store w) with
    | Some d =>
        (Done tt,
         mkWorld (mkStore (playersColl (store w))
                    (Some (<[ADMIN_IDS_FIELD := VArr (arrayUnion id (adminIdsField d))]> d)))
           (trace w ++ [UpdateDoc HubDoc u]))
    | None =>
        (Done tt,
         mkWorld (store w)
           (trace w ++ [UpdateDoc HubDoc u; ConsoleError "Error adding admin:"]))
    end.
Proof.
  unfold handleAddAdmin.
  destruct (negb (settingsDocRef a) || negb (truthy id)); [done|].
  run. destruct (settingsDoc (store w)) as [d|]; cbn [fst snd store trace].
  - by rewrite applyUpdates_singleton.
  - by rewrite <- (assoc_L (++)).
Qed.

Lemma handleRemoveAdmin_run (id : jsstring) (a : App) (w : World) :
  handleRemoveAdmin id a w =
  if negb (settingsDocRef a) || negb (truthy id) then (Done tt, w)
  else
    let u : gmap string fieldWrite := {[ ADMIN_IDS_FIELD := ArrayRemove id ]} in
    match settingsDoc (store w) with
    | Some d =>
        (Done tt,
         mkWorld (mkStore (playersColl (store w))
                    (Some (<[ADMIN_IDS_FIELD := VArr (arrayRemove id (adminIdsField d))]> d)))
           (trace w ++ [UpdateDoc HubDoc u]))
    | None =>
        (Done tt,
         mkWorld (store w)
           (trace w ++ [UpdateDoc HubDoc u; ConsoleError "Error removing admin:"]))
    end.
Proof.
  unfold handleRemoveAdmin.
  destruct (negb (settingsDocRef a) || negb (truthy id)); [done|].
  run. destruct (settingsDoc (store w)) as [d|]; cbn [fst snd store trace].
  - by rewrite applyUpdates_singleton.
  - by rewrite <- (assoc_L (++)).
Qed.

Lemma adminIdsField_insert (l : list jsstring) (d : document) :
  adminIdsField (<[ADMIN_IDS_FIELD := VArr l]> d) = l.
Proof. unfold adminIdsField. by rewrite lookup_insert_eq. Qed.

(** The coach-message editor writes three other fields. *)
Lemma handleSaveMessage_admins (messageInput now : jsstring) (a : App) (w : World) :
  adminIdsOfStore (store w) <> [] ->
  adminIdsOfStore (store (handleSaveMessage messageInput now a w).2)
  = adminIdsOfStore (store w).
Proof.
  intros Hne. unfold handleSaveMessage.
  destruct (_ || _); [done|]. run. cbn.
  unfold adminIdsOfStore in *. cbn.
  destruct (settingsDoc (store w)) as [d|]; [|done]. cbn in *.
  unfold adminIdsField. rewrite lookup_union_r; [done|].
  unfold ADMIN_IDS_FIELD. by simplify_map_eq.
Qed.

(** C5. [handleAddAdmin(id)] twice in a row leaves the store, and with
    it the administrator list, as one call does; and when [id] is already
    on the list a call leaves the store unchanged. *)
Theorem handleAddAdmin_idempotent (id : jsstring) (a : App) (w : World) :
  let once := (handleAddAdmin id a w).2 in
  let twice := (handleAddAdmin id a once).2 in
  store twice = store once
  /\ adminIdsOfStore (store twice) = adminIdsOfStore (store once)
  /\ (id ∈ adminIdsOfStore (store w) -> store once = store w).
Proof.
  cbn zeta. rewrite !handleAddAdmin_run.
  destruct (negb (settingsDocRef a) || negb (truthy id)) eqn:E; [done|].
  cbn zeta. unfold adminIdsOfStore.
  destruct (settingsDoc (store w)) as [d|] eqn:Hd;
    cbn [snd store settingsDoc playersColl from_option].
  - rewrite !adminIdsField_insert, arrayUnion_idempotent, insert_insert_eq.
    split; [done|]. split; [done|].
    intros Hin. rewrite (arrayUnion_present _ _ Hin).
    destruct (store w) as [pc sd]; cbn in *. subst sd. f_equal. f_equal.
    apply map_eq; intros i. destruct (decide (i = ADMIN_IDS_FIELD)) as [->|Hne].
    + rewrite lookup_insert_eq. unfold adminIdsField in *.
      destruct (d !! ADMIN_IDS_FIELD) as [[| | |l]|]; try done;
        by apply not_elem_of_nil in Hin.
    + by rewrite lookup_insert_ne.
  - rewrite Hd. cbn [snd store from_option]. rewrite Hd. split; [done|]. split; [done|].
    intros Hin. by apply not_elem_of_nil in Hin.
Qed.

Lemma handleAddAdmin_idempotent_witness :
  let seeded := (seedInitialData sampleTime (js "user-1") (fun _ => js "abcdefg")
                   sampleWorld).2 in
  js "user-1" ∈ adminIdsOfStore (store seeded)
  /\ store (handleAddAdmin (js "user-1") sampleApp seeded).2 = store seeded.
Proof.
  assert (H : js "user-1" ∈ adminIdsOfStore
                (store (seedInitialData sampleTime (js "user-1") (fun _ => js "abcdefg")
                          sampleWorld).2)).
  { vm_compute. apply list_elem_of_here. }
  split; [exact H|].
  exact (proj2 (proj2 (handleAddAdmin_idempotent (js "user-1") sampleApp _)) H).
Defined.

(** C4, as the code has it. The settings document written by the seeding
    branch has the seeding identity as its only administrator. From there
    [handleAddAdmin], [handleSaveMessage] and every [handleRemoveAdmin(id)]
    issued while an administrator other than [id] is on the list keep the
    list non-empty. (Nothing is said here about removing the last
    administrator.) *)
Theorem admins_nonempty_while_another_remains :
  (forall (loadTime uid : jsstring) (rand : nat -> jsstring) (w0 : World),
     adminIdsOfStore (storeAfter (seedInitialData loadTime uid rand) w0) = [uid])
  /\ (forall w : World, adminReachable w -> adminIdsOfStore (store w) <> []).
Proof.
  assert (Hseed : forall loadTime uid rand w0,
             adminIdsOfStore (storeAfter (seedInitialData loadTime uid rand) w0) = [uid]).
  { intros. unfold adminIdsOfStore, storeAfter.
    rewrite seedInitialData_settings. cbn. apply adminIdsField_insert. }
  split; [exact Hseed|].
  intros w Hreach. induction Hreach as [loadTime uid rand w0|id a w _ IH|msg now a w _ IH
                                       |id other a w _ IH Hin Hne].
  - unfold storeAfter in Hseed. by rewrite Hseed.
  - rewrite handleAddAdmin_run.
    destruct (negb (settingsDocRef a) || negb (truthy id)); [done|].
    cbn zeta. unfold adminIdsOfStore in *.
    destruct (settingsDoc (store w)) as [d|]; [|done]. cbn.
    rewrite adminIdsField_insert. apply arrayUnion_nonempty.
  - by rewrite handleSaveMessage_admins.
  - rewrite handleRemoveAdmin_run.
    destruct (negb (settingsDocRef a) || negb (truthy id)); [done|].
    cbn zeta. unfold adminIdsOfStore in *.
    destruct (settingsDoc (store w)) as [d|]; [|done]. cbn in *.
    rewrite adminIdsField_insert.
    intros Hnil. pose proof (arrayRemove_keeps id other _ Hin Hne) as Hkept.
    rewrite Hnil in Hkept. by apply not_elem_of_nil in Hkept.
Qed.

Lemma admins_nonempty_while_another_remains_witness :
  let seeded := (seedInitialData sampleTime (js "user-1") (fun _ => js "abcdefg")
                   sampleWorld).2 in
  let added := (handleAddAdmin (js "user-2") sampleAdminApp seeded).2 in
  let removed := (handleRemoveAdmin (js "user-1") sampleAdminApp added).2 in
  adminReachable removed /\ adminIdsOfStore (store removed) <> [].
Proof.
  cbn zeta.
  assert (H : adminReachable
                (handleRemoveAdmin (js "user-1") sampleAdminApp
                   (handleAddAdmin (js "user-2") sampleAdminApp
                      (seedInitialData sampleTime (js "user-1") (fun _ => js "abcdefg")
                         sampleWorld).2).2).2).
  { apply (reach_remove (js "user-1") (js "user-2")).
    - apply reach_add, reach_seed.
    - vm_compute. apply list_elem_of_further, list_elem_of_here.
    - vm_compute. discriminate. }
  split; [exact H|].
  exact (proj2 admins_nonempty_while_another_remains _ H).
Defined.

(** C4, as stated, fails. The seeding identity, sole administrator of the
    seeded settings document, removes itself with [handleRemoveAdmin] and
    the list is empty. The panel's own controls get there too: with two
    administrators, each session is offered the removal of the other,
    and the second removal, issued from a view that is one snapshot
    behind, empties the list. *)
Lemma sole_admin_removal_empties_list :
  let seeded := (seedInitialData sampleTime (js "user-1") (fun _ => js "abcdefg")
                   sampleWorld).2 in
  let both := (handleAddAdmin (js "user-2") sampleAdminApp seeded).2 in
  let first := setAdminIds [js "user-1"; js "user-2"] sampleApp in
  let second := sampleSecondAdminApp in
  adminIdsOfStore (store seeded) = [js "user-1"]
  /\ adminIdsOfStore (storeAfter (handleRemoveAdmin (js "user-1") sampleAdminApp) seeded) = []
  /\ adminIdsOfStore (store both) = [js "user-1"; js "user-2"]
  /\ adminPanelRemoveControls first = [js "user-2"]
  /\ adminPanelRemoveControls second = [js "user-1"]
  /\ adminIdsOfStore
       (storeAfter (handleRemoveAdmin (js "user-1") second)
          (handleRemoveAdmin (js "user-2") first both).2) = [].
Proof. vm_compute. done. Qed.

(** At the panel the side condition of a safe removal holds by
    construction: a session that sees itself on the list, and sees the
    list as the store has it, is offered removals of other ids only. *)
Lemma panel_removal_keeps_session (id : jsstring) (a : App) (w : World) :
  adminIds a = adminIdsOfStore (store w) ->
  id ∈ adminPanelRemoveControls a ->
  exists other, other ∈ adminIdsOfStore (store w) /\ other <> id.
Proof.
  intros Hsync Hctl. unfold adminPanelRemoveControls, isAdmin, removeButtons in Hctl.
  destruct (userId a) as [u|] eqn:Hu; [|by apply not_elem_of_nil in Hctl].
  case_bool_decide as Hadm; [|by apply not_elem_of_nil in Hctl].
  apply list_elem_of_In, filter_In in Hctl as [_ Hother].
  exists u. split; [by rewrite <- Hsync|].
  intros ->. by rewrite bool_decide_eq_true_2 in Hother.
Qed.

(** C10. The admin panel offers a remove control only for listed ids
    other than the session's own identity, and every control it offers
    calls [handleRemoveAdmin] with such an id. [handleRemoveAdmin] itself
    never looks at the session's identity: with the settings reference
    set, any (non-empty) id, the session's own included, gets the
    [arrayRemove] write issued. *)
Theorem remove_guard_is_in_the_panel_only (a : App) (w : World) :
  (forall id, id ∈ adminPanelRemoveControls a -> Some id <> userId a /\ id ∈ adminIds a)
  /\ (forall id, settingsDocRef a = true -> truthy id = true ->
        issuedBy (handleRemoveAdmin id a) w
        = [UpdateDoc HubDoc {[ ADMIN_IDS_FIELD := ArrayRemove id ]}])
  /\ (forall own, userId a = Some own -> settingsDocRef a = true -> truthy own = true ->
        issuedBy (handleRemoveAdmin own a) w
        = [UpdateDoc HubDoc {[ ADMIN_IDS_FIELD := ArrayRemove own ]}]).
Proof.
  assert (Hany : forall id, settingsDocRef a = true -> truthy id = true ->
            issuedBy (handleRemoveAdmin id a) w
            = [UpdateDoc HubDoc {[ ADMIN_IDS_FIELD := ArrayRemove id ]}]).
  { intros id Href Hid. unfold issuedBy. rewrite handleRemoveAdmin_run, Href, Hid.
    cbn [negb orb]. cbn zeta.
    destruct (settingsDoc (store w)); cbn [snd trace]; by rewrite issued_suffix. }
  split; [|split; [exact Hany|]].
  - intros id Hctl. unfold adminPanelRemoveControls, removeButtons in Hctl.
    destruct (isAdmin a); [|by apply not_elem_of_nil in Hctl].
    apply list_elem_of_In, filter_In in Hctl as [Hin Hother].
    split; [|by apply list_elem_of_In].
    intros Heq. by rewrite bool_decide_eq_true_2 in Hother.
  - intros own _. apply Hany.
Qed.

Lemma remove_guard_is_in_the_panel_only_witness :
  issuedBy (handleRemoveAdmin (js "user-1") sampleAdminApp) sampleWorld
  = [UpdateDoc HubDoc {[ ADMIN_IDS_FIELD := ArrayRemove (js "user-1") ]}]
  /\ adminPanelRemoveControls (setAdminIds [js "user-1"; js "user-2"] sampleApp)
     = [js "user-2"].
Proof.
  split.
  - apply (proj2 (proj2 (remove_guard_is_in_the_panel_only sampleAdminApp sampleWorld))
             (js "user-1")); reflexivity.
  - reflexivity.
Defined.

(** ** The settings subscription *)

(** C6. When the settings document does not exist the subscription
    hands the listener a snapshot that does not exist; the listener then
    takes the hardcoded [INITIAL_HUB_DATA] and the empty administrator
    list, and [isAdmin] is false whatever the session's identity. *)
Theorem absent_settings_make_nobody_admin (loadTime : jsstring) (a : App) (w : World) :
  settingsDoc (store w) = None ->
  deliverSettings loadTime a w = onHubSnapshot loadTime None a w
  /\ exists a' : App,
       (deliverSettings loadTime a w).1 = Done a'
       /\ adminIds a' = []
       /\ hubData a' = INITIAL_HUB_DATA loadTime
       /\ forall uid : option jsstring, isAdmin (setUserId uid a') = false.
Proof.
  intros Habsent. unfold deliverSettings. run. rewrite Habsent.
  split; [done|].
  eexists. split; [reflexivity|]. split; [done|]. split; [done|].
  intros [u|]; [|done]. unfold isAdmin. cbn.
  apply bool_decide_eq_false_2, not_elem_of_nil.
Qed.

Lemma absent_settings_make_nobody_admin_witness :
  exists a' : App,
    (deliverSettings sampleTime sampleAdminApp sampleWorld).1 = Done a'
    /\ adminIds a' = []
    /\ hubData a' = INITIAL_HUB_DATA sampleTime
    /\ forall uid : option jsstring, isAdmin (setUserId uid a') = false.
Proof.
  apply (absent_settings_make_nobody_admin sampleTime sampleAdminApp sampleWorld).
  reflexivity.
Defined.

(** ** Identity bootstrap *)

Lemma uidOrAnonymous_truthy (currentUser : option jsstring) :
  truthy (uidOrAnonymous currentUser) = true.
Proof.
  unfold uidOrAnonymous. destruct currentUser as [uid|]; [|done].
  by destruct (truthy uid) eqn:E.
Qed.

Lemma authStateListener_ready (idp : IdentityProvider) (user : option jsstring)
    (a a' : App) :
  authStateListener idp user a = Done a' ->
  isAuthReady a' = true /\ truthy_opt (userId a') = true.
Proof.
  unfold authStateListener. destruct (signInIfNeeded idp user) as [cu|]; [|done].
  intros [= <-]. split; [done|]. apply uidOrAnonymous_truthy.
Qed.

(** The paths that do end ready: a synchronous failure of the
    initialisation (identity [mock-user]), an existing session, and a
    sign-in that resolves (the uid, or [anonymous]). *)
Lemma authEffect_ready_unless_sign_in_rejects (idp : IdentityProvider) (a : App) :
  initThrows idp = true \/ signInIfNeeded idp (sessionUser idp) <> SignInRejected ->
  isAuthReady (authEffect idp a) = true
  /\ truthy_opt (userId (authEffect idp a)) = true.
Proof.
  intros Hpath. unfold authEffect.
  destruct (initThrows idp); [done|].
  destruct Hpath as [|Hok]; [done|].
  set (a1 := setAuth true (setDb true a)).
  destruct (authStateListener idp (sessionUser idp) a1) as [a2|e] eqn:H1.
  - pose proof (authStateListener_ready _ _ _ _ H1) as Hready. cbn [settled].
    destruct (sessionUser idp); [done|].
    destruct (signInIfNeeded idp None) as [[uid|]|]; try done.
    destruct (authStateListener idp (Some uid) a2) as [a3|e] eqn:H2; [|done].
    cbn [settled]. by apply (authStateListener_ready _ _ _ _ H2).
  - unfold authStateListener in H1.
    by destruct (signInIfNeeded idp (sessionUser idp)).
Qed.

(** C8 (the code departs from the claim). With no current session and
    every sign-in strategy rejected by the Identity Provider, with or
    without a bootstrap token, the listener stops at the rejected
    [await]: the effect leaves [isAuthReady] and [userId] as they were,
    so a session that starts from the initial state stays unready, with
    no identity, not even a sentinel. *)
Theorem authEffect_rejected_sign_in_stays_unready (token : option jsstring)
    (loadTime : jsstring) (a : App) :
  let idp := mkIdP false None token (fun _ => SignInRejected) SignInRejected in
  isAuthReady (authEffect idp a) = isAuthReady a
  /\ userId (authEffect idp a) = userId a
  /\ isAuthReady (authEffect idp (initialApp loadTime)) = false
  /\ userId (authEffect idp (initialApp loadTime)) = None.
Proof.
  cbn zeta. unfold authEffect, authStateListener, signInIfNeeded.
  cbn [initThrows sessionUser initialAuthToken signInWithCustomToken signInAnonymously].
  destruct (truthy_opt token); done.
Qed.

(** * Further properties of the handlers *)

(** ** [handleUpdateProfile] *)

(** An update of plain values overwrites the fields it names and keeps
    the others. *)
Lemma applyUpdates_put (updates d : document) :
  applyUpdates (Put <$> updates) d = updates ∪ d.
Proof.
  apply map_eq; intros i. unfold applyUpdates.
  rewrite lookup_merge, lookup_fmap, lookup_union.
  by destruct (updates !! i), (d !! i).
Qed.

(** Every path of [handleUpdateProfile], in one equation. *)
Lemma handleUpdateProfile_run (updates : document) (a : App) (w : World) :
  handleUpdateProfile updates a w =
  if negb (db a) || negb (truthy_opt (userId a)) then (Done tt, w)
  else
    let failed :=
      (Done tt, mkWorld (store w) (trace w ++ [ConsoleError "Error updating profile:"])) in
    match find (ownedBy (userId a)) (players a) with
    | None =>
        (Done tt,
         mkWorld (store w) (trace w ++ [ConsoleWarn "Current user document not found."]))
    | Some p =>
        match p !! "id" with
        | Some (VStr pid) =>
            if truthy pid then
              match playersColl (store w) !! pid with
              | Some d =>
                  (Done tt,
                   mkWorld (mkStore (<[pid := updates ∪ d]> (playersColl (store w)))
                              (settingsDoc (store w)))
                     (trace w ++ [UpdateDoc (PlayerDoc pid) (Put <$> updates)]))
              | None =>
                  (Done tt,
                   mkWorld (store w)
                     (trace w ++ [UpdateDoc (PlayerDoc pid) (Put <$> updates);
                                  ConsoleError "Error updating profile:"]))
              end
            else failed
        | _ => failed
        end
    end.
Proof.
  unfold handleUpdateProfile.
  destruct (negb (db a) || negb (truthy_opt (userId a))); [done|].
  destruct (find _ _) as [p|]; [|done].
  unfold playerDocRef. run.
  destruct (p !! "id") as [[|pid| |]|]; try done.
  destruct (truthy pid); [|done]. cbn [fst snd store trace readDoc putDoc].
  destruct (playersColl (store w) !! pid) as [d|]; cbn [fst snd store trace].
  - by rewrite applyUpdates_put.
  - by rewrite <- (assoc_L (++)).
Qed.

Lemma handleUpdateProfile_issued (updates : document) (a : App) (w : World) :
  issuedBy (handleUpdateProfile updates a) w = []
  \/ exists (p : document) (pid uid : jsstring),
       p ∈ players a
       /\ userId a = Some uid
       /\ p !! "userId" = Some (VStr uid)
       /\ p !! "id" = Some (VStr pid)
       /\ issuedBy (handleUpdateProfile updates a) w
          = [UpdateDoc (PlayerDoc pid) (Put <$> updates)].
Proof.
  unfold issuedBy. rewrite handleUpdateProfile_run.
  destruct (negb (db a) || negb (truthy_opt (userId a))) eqn:Hguard.
  { left. cbn [snd]. apply issued_nothing. }
  cbn zeta.
  destruct (find _ _) as [p|] eqn:Hfind.
  2:{ left. cbn [snd trace]. by rewrite issued_suffix. }
  apply find_some in Hfind as [Hin Hown].
  assert (Howned : exists uid, userId a = Some uid /\ p !! "userId" = Some (VStr uid)).
  { unfold ownedBy in Hown. destruct (userId a) as [uid|] eqn:Hu.
    - exists uid. split; [done|]. by apply bool_decide_eq_true_1 in Hown.
    - cbn in Hguard. by destruct (db a). }
  destruct Howned as (uid & Hu & Hp).
  destruct (p !! "id") as [[|pid| |]|] eqn:Hid;
    try (left; cbn [snd trace]; by rewrite issued_suffix).
  destruct (truthy pid); [|left; cbn [snd trace]; by rewrite issued_suffix].
  right. exists p, pid, uid. rewrite list_elem_of_In.
  repeat (split; [done|]).
  destruct (playersColl (store w) !! pid); cbn [snd trace]; by rewrite issued_suffix.
Qed.

(** X1. Whatever the view and the store, [handleUpdateProfile] issues at
    most one remote write, and that write is the update, with exactly the
    given fields, of a profile of the local view that the session's
    identity owns. *)
Theorem handleUpdateProfile_writes_only_own (updates : document) (a : App)
    (w : World) (e : Event) :
  e ∈ issuedBy (handleUpdateProfile updates a) w ->
  issuedBy (handleUpdateProfile updates a) w = [e]
  /\ exists (p : document) (pid uid : jsstring),
       p ∈ players a
       /\ userId a = Some uid
       /\ p !! "userId" = Some (VStr uid)
       /\ p !! "id" = Some (VStr pid)
       /\ e = UpdateDoc (PlayerDoc pid) (Put <$> updates).
Proof.
  intros He.
  destruct (handleUpdateProfile_issued updates a w)
    as [Hnil|(p & pid & uid & Hin & Hu & Hp & Hid & Hiss)].
  - rewrite Hnil in He. by apply not_elem_of_nil in He.
  - rewrite Hiss in He |- *. apply list_elem_of_singleton in He as ->.
    split; [done|]. by exists p, pid, uid.
Qed.

Lemma handleUpdateProfile_writes_only_own_witness :
  let updates : document := {[ "name" := VStr (js "Jo") ]} in
  let e := UpdateDoc (PlayerDoc (js "p1")) {[ "name" := Put (VStr (js "Jo")) ]} in
  e ∈ issuedBy (handleUpdateProfile updates sampleApp) sampleWorld
  /\ issuedBy (handleUpdateProfile updates sampleApp) sampleWorld = [e].
Proof.
  cbn zeta.
  assert (H : UpdateDoc (PlayerDoc (js "p1")) {[ "name" := Put (VStr (js "Jo")) ]}
              ∈ issuedBy (handleUpdateProfile {[ "name" := VStr (js "Jo") ]} sampleApp)
                  sampleWorld).
  { vm_compute. apply list_elem_of_here. }
  split; [exact H|].
  exact (proj1 (handleUpdateProfile_writes_only_own _ _ _ _ H)).
Defined.

(** X2. When the own profile is in the view and its document is in the
    store, [handleUpdateProfile] changes that one document only: the
    fields of the update get their new values, every other field of the
    document keeps its value, and the other profiles and the settings
    document are untouched. *)
Theorem handleUpdateProfile_store_effect (updates : document) (a : App) (w : World)
    (p d : document) (pid : jsstring) :
  ownProfileInView a p pid ->
  playersColl (store w) !! pid = Some d ->
  let s' := storeAfter (handleUpdateProfile updates a) w in
  (exists d' : document,
     playersColl s' !! pid = Some d'
     /\ forall f : string,
          d' !! f = match updates !! f with
                    | Some v => Some v
                    | None => d !! f
                    end)
  /\ (forall k : jsstring, k <> pid -> playersColl s' !! k = playersColl (store w) !! k)
  /\ settingsDoc s' = settingsDoc (store w).
Proof.
  intros (Hdb & Hu & Hfind & Hid & Hpid) Hd. cbn zeta. unfold storeAfter.
  rewrite handleUpdateProfile_run, Hdb, Hu, Hfind. cbn [negb orb]. cbn zeta.
  rewrite Hid, Hpid, Hd. cbn [snd store playersColl settingsDoc].
  split; [|split; [|done]].
  - exists (updates ∪ d). split; [by rewrite lookup_insert_eq|].
    intros f. rewrite lookup_union. by destruct (updates !! f), (d !! f).
  - intros k Hk. by rewrite lookup_insert_ne.
Qed.

Lemma sampleApp_ownProfileInView :
  ownProfileInView sampleApp (newPlayer (js "p1") (js "user-1")) (js "p1").
Proof. repeat split. Qed.

Lemma handleUpdateProfile_store_effect_witness :
  let s' := storeAfter (handleUpdateProfile {[ "jerseyNumber" := VNum 7 ]} sampleApp)
              sampleWorld in
  (exists d' : document,
     playersColl s' !! js "p1" = Some d'
     /\ forall f : string,
          d' !! f = match ({[ "jerseyNumber" := VNum 7 ]} : document) !! f with
                    | Some v => Some v
                    | None => newPlayer (js "p1") (js "user-1") !! f
                    end)
  /\ (forall k : jsstring,
        k <> js "p1" -> playersColl s' !! k = playersColl (store sampleWorld) !! k)
  /\ settingsDoc s' = settingsDoc (store sampleWorld).
Proof.
  apply (handleUpdateProfile_store_effect {[ "jerseyNumber" := VNum 7 ]} sampleApp
           sampleWorld (newPlayer (js "p1") (js "user-1"))
           (newPlayer (js "p1") (js "user-1")) (js "p1")).
  - exact sampleApp_ownProfileInView.
  - vm_compute. reflexivity.
Defined.

(** X3. When the view still shows the own profile but its document is
    gone from the store, the update is issued and rejected: the error is
    logged, the store stays as it was, and [handleJerseyUpdate] still
    sets the optimistic copy to the new number. *)
Theorem handleUpdateProfile_stale_view (updates : document) (a : App) (w : World)
    (p : document) (pid : jsstring) :
  ownProfileInView a p pid ->
  playersColl (store w) !! pid = None ->
  handleUpdateProfile updates a w
  = (Done tt,
     mkWorld (store w)
       (trace w ++ [UpdateDoc (PlayerDoc pid) (Put <$> updates);
                    ConsoleError "Error updating profile:"]))
  /\ forall (jerseyInput : jsstring) (n : Z),
       parseInt jerseyInput = Some n -> 0 <= n <= 99 ->
       (handleJerseyUpdate jerseyInput a w).1
       = Done (patchSelectedPlayer "jerseyNumber" (VNum n) a)
       /\ storeAfter (handleJerseyUpdate jerseyInput a) w = store w.
Proof.
  intros (Hdb & Hu & Hfind & Hid & Hpid) Hd.
  assert (Hrun : forall updates,
            handleUpdateProfile updates a w
            = (Done tt,
               mkWorld (store w)
                 (trace w ++ [UpdateDoc (PlayerDoc pid) (Put <$> updates);
                              ConsoleError "Error updating profile:"]))).
  { intros u. rewrite handleUpdateProfile_run, Hdb, Hu, Hfind. cbn [negb orb]. cbn zeta.
    by rewrite Hid, Hpid, Hd. }
  split; [apply Hrun|].
  intros jerseyInput n Hn Hrange. unfold storeAfter.
  rewrite (handleJerseyUpdate_accepted _ a w n Hn Hrange), Hrun. done.
Qed.

Lemma handleUpdateProfile_stale_view_witness :
  handleUpdateProfile {[ "jerseyNumber" := VNum 7 ]} sampleApp (mkWorld emptyStore [])
  = (Done tt,
     mkWorld emptyStore
       [UpdateDoc (PlayerDoc (js "p1")) (Put <$> {[ "jerseyNumber" := VNum 7 ]});
        ConsoleError "Error updating profile:"]).
Proof.
  apply (proj1 (handleUpdateProfile_stale_view {[ "jerseyNumber" := VNum 7 ]} sampleApp
                  (mkWorld emptyStore []) (newPlayer (js "p1") (js "user-1")) (js "p1")
                  sampleApp_ownProfileInView eq_refl)).
Defined.

(** X4. The degraded session. When the initialisation throws, the session
    is ready under the identity [mock-user] but has no store handle, and
    from then on nothing it does reaches the store: the data effect
    neither seeds nor subscribes, and the profile, administrator and
    coach-message handlers all return at their first guard. *)
Theorem degraded_session_never_writes (idp : IdentityProvider) (loadTime : jsstring) :
  initThrows idp = true ->
  let a := authEffect idp (initialApp loadTime) in
  isAuthReady a = true /\ userId a = Some (js "mock-user") /\ db a = false
  /\ forall w : World,
       (forall lt np rand, dataEffect lt np rand a w = (Done a, w))
       /\ (forall updates, handleUpdateProfile updates a w = (Done tt, w))
       /\ (forall id, handleAddAdmin id a w = (Done tt, w))
       /\ (forall id, handleRemoveAdmin id a w = (Done tt, w))
       /\ (forall messageInput now, handleSaveMessage messageInput now a w = (Done tt, w)).
Proof.
  intros Hthrows. cbn zeta. unfold authEffect. rewrite Hthrows.
  repeat split; try done.
  intros messageInput now. unfold handleSaveMessage.
  by destruct (length (trim messageInput) =? 0)%nat.
Qed.

Lemma degraded_session_never_writes_witness :
  let a := authEffect (mkIdP true None None (fun _ => SignInRejected) SignInRejected)
             (initialApp sampleTime) in
  isAuthReady a = true /\ userId a = Some (js "mock-user") /\ db a = false
  /\ forall w : World,
       (forall lt np rand, dataEffect lt np rand a w = (Done a, w))
       /\ (forall updates, handleUpdateProfile updates a w = (Done tt, w))
       /\ (forall id, handleAddAdmin id a w = (Done tt, w))
       /\ (forall id, handleRemoveAdmin id a w = (Done tt, w))
       /\ (forall messageInput now, handleSaveMessage messageInput now a w = (Done tt, w)).
Proof.
  apply (degraded_session_never_writes
           (mkIdP true None None (fun _ => SignInRejected) SignInRejected) sampleTime).
  reflexivity.
Defined.

(** ** What the profile editors write *)

Lemma trimStart_head (s r : jsstring) (c : N) :
  trimStart s = c :: r -> isWhiteSpace c = false.
Proof.
  induction s as [|x s IH]; [done|]. cbn [trimStart].
  destruct (isWhiteSpace x) eqn:Hx; [done|]. by intros [= <- _].
Qed.

Lemma trimStart_blank (s : jsstring) :
  Forall (fun c => isWhiteSpace c = true) s -> trimStart s = [].
Proof.
  induction 1 as [|x s Hx _ IH]; [done|]. cbn [trimStart]. by rewrite Hx.
Qed.

Lemma trimStart_split (s : jsstring) :
  exists pre : jsstring, s = (pre ++ trimStart s)%list.
Proof.
  induction s as [|x s [pre IH]]; [by exists []|]. cbn [trimStart].
  destruct (isWhiteSpace x).
  - exists (x :: pre). cbn. by rewrite <- IH.
  - by exists [].
Qed.

Lemma trim_blank (s : jsstring) :
  Forall (fun c => isWhiteSpace c = true) s -> trim s = [].
Proof. intros Hs. unfold trim. by rewrite (trimStart_blank s Hs). Qed.

Lemma trim_head (s : jsstring) (c : N) :
  head (trim s) = Some c -> isWhiteSpace c = false.
Proof.
  unfold trim, trimEnd. set (t := trimStart s). intros Hhead.
  destruct (trimStart_split (rev t)) as [pre Hpre].
  assert (Ht : t = (rev (trimStart (rev t)) ++ rev pre)%list).
  { by rewrite <- rev_app_distr, <- Hpre, rev_involutive. }
  destruct (rev (trimStart (rev t))) as [|c' r] eqn:Hr; [done|].
  cbn in Hhead. injection Hhead as ->.
  apply (trimStart_head s (r ++ rev pre)%list). exact Ht.
Qed.

Lemma trim_last (s : jsstring) (c : N) :
  last (trim s) = Some c -> isWhiteSpace c = false.
Proof.
  unfold trim, trimEnd.
  destruct (trimStart (rev (trimStart s))) as [|c' r] eqn:Hr; [done|].
  cbn [rev]. rewrite last_snoc. intros [= <-].
  by apply (trimStart_head _ _ _ Hr).
Qed.

(** X5. Every remote write [handleJerseyUpdate] issues, whatever the
    input, the view and the store, sets [jerseyNumber], and nothing else,
    to the integer the input parses to, and that integer lies in
    [0, 99]. *)
Theorem handleJerseyUpdate_writes_in_range (jerseyInput : jsstring) (a : App)
    (w : World) (e : Event) :
  e ∈ issuedBy (handleJerseyUpdate jerseyInput a) w ->
  exists (pid : jsstring) (n : Z),
    parseInt jerseyInput = Some n /\ 0 <= n <= 99
    /\ e = UpdateDoc (PlayerDoc pid) {[ "jerseyNumber" := Put (VNum n) ]}.
Proof.
  intros He.
  destruct (jerseyInRange (parseInt jerseyInput)) eqn:Hguard.
  - apply jerseyInRange_spec in Hguard as (n & Hn & Hrange).
    unfold issuedBy in He. rewrite (handleJerseyUpdate_accepted _ a w n Hn Hrange) in He.
    cbn [snd] in He.
    destruct (handleUpdateProfile_issued {[ "jerseyNumber" := VNum n ]} a w)
      as [Hnil|(p & pid & uid & _ & _ & _ & _ & Hiss)]; unfold issuedBy in *.
    + rewrite Hnil in He. by apply not_elem_of_nil in He.
    + rewrite Hiss, map_fmap_singleton in He. apply list_elem_of_singleton in He.
      by exists pid, n.
  - assert (Hno : ~ parsesInRange jerseyInput).
    { intros Hp. apply jerseyInRange_spec in Hp. congruence. }
    unfold issuedBy in He. rewrite (handleJerseyUpdate_rejected _ a w Hno) in He.
    cbn [snd trace] in He. rewrite issued_suffix in He. by apply not_elem_of_nil in He.
Qed.

Lemma handleJerseyUpdate_writes_in_range_witness :
  exists (pid : jsstring) (n : Z),
    parseInt (js " 42") = Some n /\ 0 <= n <= 99
    /\ UpdateDoc (PlayerDoc (js "p1")) {[ "jerseyNumber" := Put (VNum 42) ]}
       = UpdateDoc (PlayerDoc pid) {[ "jerseyNumber" := Put (VNum n) ]}.
Proof.
  apply (handleJerseyUpdate_writes_in_range (js " 42") sampleApp sampleWorld).
  vm_compute. apply list_elem_of_here.
Defined.

(** X6. A name, a coach message or an administrator id made of white
    space only is never written: [handleNameUpdate] logs its warning and
    changes nothing, [handleSaveMessage] and the Add button's click do
    nothing at all. *)
Theorem blank_input_never_written (input : jsstring) (a : App) (w : World) :
  Forall (fun c => isWhiteSpace c = true) input ->
  handleNameUpdate input a w
  = (Done a, mkWorld (store w) (trace w ++ [ConsoleWarn "Name cannot be empty."]))
  /\ (forall now, handleSaveMessage input now a w = (Done tt, w))
  /\ clickAddAdmin input a w = (Done tt, w).
Proof.
  intros Hblank. pose proof (trim_blank input Hblank) as Htrim.
  split; [|split].
  - apply handleNameUpdate_short_rejected. rewrite Htrim. cbn. lia.
  - intros now. unfold handleSaveMessage. by rewrite Htrim.
  - unfold clickAddAdmin, handleAddAdmin. rewrite Htrim. cbn [truthy negb].
    by rewrite orb_true_r.
Qed.

Lemma blank_input_never_written_witness :
  handleNameUpdate (js "   ") sampleApp sampleWorld
  = (Done sampleApp,
     mkWorld (store sampleWorld)
       (trace sampleWorld ++ [ConsoleWarn "Name cannot be empty."]))
  /\ (forall now, handleSaveMessage (js "   ") now sampleApp sampleWorld
                  = (Done tt, sampleWorld))
  /\ clickAddAdmin (js "   ") sampleApp sampleWorld = (Done tt, sampleWorld).
Proof.
  apply (blank_input_never_written (js "   ") sampleApp sampleWorld).
  repeat constructor.
Defined.

(** X7. Every remote write [handleNameUpdate] issues sets [name], and
    nothing else, to the trimmed input; the name written has at least two
    code units and neither starts nor ends with white space. *)
Theorem handleNameUpdate_writes_trimmed (nameInput : jsstring) (a : App)
    (w : World) (e : Event) :
  e ∈ issuedBy (handleNameUpdate nameInput a) w ->
  exists (pid name : jsstring),
    e = UpdateDoc (PlayerDoc pid) {[ "name" := Put (VStr name) ]}
    /\ name = trim nameInput
    /\ (2 <= length name)%nat
    /\ (forall c, head name = Some c -> isWhiteSpace c = false)
    /\ (forall c, last name = Some c -> isWhiteSpace c = false).
Proof.
  intros He.
  destruct (decide (length (trim nameInput) <= 1)%nat) as [Hshort|Hlong].
  - unfold issuedBy in He. rewrite (handleNameUpdate_short_rejected _ a w Hshort) in He.
    cbn [snd trace] in He. rewrite issued_suffix in He. by apply not_elem_of_nil in He.
  - assert (Hguard : (1 <? length (trim nameInput))%nat = true) by (apply Nat.ltb_lt; lia).
    unfold issuedBy, handleNameUpdate in He. rewrite Hguard in He.
    rewrite (bind_done _ _ _ _ (handleUpdateProfile_done _ a w)) in He.
    unfold ret in He. cbn [snd] in He.
    destruct (handleUpdateProfile_issued {[ "name" := VStr (trim nameInput) ]} a w)
      as [Hnil|(p & pid & uid & _ & _ & _ & _ & Hiss)]; unfold issuedBy in *.
    + rewrite Hnil in He. by apply not_elem_of_nil in He.
    + rewrite Hiss, map_fmap_singleton in He. apply list_elem_of_singleton in He.
      exists pid, (trim nameInput). split; [done|]. split; [done|]. split; [lia|].
      split; [apply trim_head|apply trim_last].
Qed.

Lemma handleNameUpdate_writes_trimmed_witness :
  exists (pid name : jsstring),
    UpdateDoc (PlayerDoc (js "p1")) {[ "name" := Put (VStr (js "Jo Doe")) ]}
    = UpdateDoc (PlayerDoc pid) {[ "name" := Put (VStr name) ]}
    /\ name = trim (js "  Jo Doe ")
    /\ (2 <= length name)%nat
    /\ (forall c, head name = Some c -> isWhiteSpace c = false)
    /\ (forall c, last name = Some c -> isWhiteSpace c = false).
Proof.
  apply (handleNameUpdate_writes_trimmed (js "  Jo Doe ") sampleApp sampleWorld).
  vm_compute. apply list_elem_of_here.
Defined.

(** ** What the administrator operations do to the list *)

Lemma arrayUnion_elem (x id : jsstring) (l : list jsstring) :
  x ∈ arrayUnion id l <-> x ∈ l \/ x = id.
Proof.
  unfold arrayUnion. case_bool_decide as Hin.
  - split; [by left|]. by intros [?| ->].
  - rewrite elem_of_app, list_elem_of_singleton. done.
Qed.

Lemma arrayUnion_NoDup (id : jsstring) (l : list jsstring) :
  NoDup l -> NoDup (arrayUnion id l).
Proof.
  intros Hnd. unfold arrayUnion. case_bool_decide as Hin; [done|].
  apply NoDup_app. split; [done|]. split.
  - intros x Hx ->%list_elem_of_singleton. done.
  - apply NoDup_singleton.
Qed.

Lemma arrayUnion_prefix (id : jsstring) (l : list jsstring) :
  l `prefix_of` arrayUnion id l.
Proof.
  unfold arrayUnion. case_bool_decide; [done|]. by apply prefix_app_r.
Qed.

Lemma arrayRemove_elem (x id : jsstring) (l : list jsstring) :
  x ∈ arrayRemove id l <-> x ∈ l /\ x <> id.
Proof. unfold arrayRemove. rewrite list_elem_of_filter. tauto. Qed.

Lemma arrayRemove_absent (id : jsstring) (l : list jsstring) :
  id ∉ l -> arrayRemove id l = l.
Proof.
  unfold arrayRemove. induction l as [|y l IH]; [done|].
  intros Hnot. apply not_elem_of_cons in Hnot as [Hne Hnot].
  rewrite filter_cons_True by done. by rewrite IH.
Qed.

Lemma arrayRemove_arrayUnion (id : jsstring) (l : list jsstring) :
  id ∉ l -> arrayRemove id (arrayUnion id l) = l.
Proof.
  intros Hnot. unfold arrayUnion. rewrite bool_decide_eq_false_2 by done.
  unfold arrayRemove. rewrite filter_app.
  fold (arrayRemove id l). rewrite (arrayRemove_absent id l Hnot).
  rewrite filter_cons_False by (intros Hne; by apply Hne). cbn.
  by rewrite app_nil_r.
Qed.

Lemma handleAddAdmin_store (id : jsstring) (a : App) (w : World) (d : document) :
  settingsDocRef a = true -> truthy id = true -> settingsDoc (store w) = Some d ->
  storeAfter (handleAddAdmin id a) w
  = mkStore (playersColl (store w))
      (Some (<[ADMIN_IDS_FIELD := VArr (arrayUnion id (adminIdsField d))]> d)).
Proof.
  intros Href Hid Hd. unfold storeAfter.
  by rewrite handleAddAdmin_run, Href, Hid, Hd.
Qed.

Lemma handleRemoveAdmin_store (id : jsstring) (a : App) (w : World) (d : document) :
  settingsDocRef a = true -> truthy id = true -> settingsDoc (store w) = Some d ->
  storeAfter (handleRemoveAdmin id a) w
  = mkStore (playersColl (store w))
      (Some (<[ADMIN_IDS_FIELD := VArr (arrayRemove id (adminIdsField d))]> d)).
Proof.
  intros Href Hid Hd. unfold storeAfter.
  by rewrite handleRemoveAdmin_run, Href, Hid, Hd.
Qed.

(** X8. On an existing settings document [handleAddAdmin(id)] makes [id]
    an administrator and keeps everyone who was: the old list is a prefix
    of the new one, the new list holds exactly the old members and [id],
    a list without duplicates stays without duplicates, and neither the
    players collection nor any other field of the settings document
    changes. *)
Theorem handleAddAdmin_effect (id : jsstring) (a : App) (w : World) (d : document) :
  settingsDocRef a = true -> truthy id = true -> settingsDoc (store w) = Some d ->
  let before := adminIdsOfStore (store w) in
  let s' := storeAfter (handleAddAdmin id a) w in
  id ∈ adminIdsOfStore s'
  /\ before `prefix_of` adminIdsOfStore s'
  /\ (forall x, x ∈ adminIdsOfStore s' <-> x ∈ before \/ x = id)
  /\ (NoDup before -> NoDup (adminIdsOfStore s'))
  /\ playersColl s' = playersColl (store w)
  /\ exists d' : document,
       settingsDoc s' = Some d'
       /\ forall f : string, f <> ADMIN_IDS_FIELD -> d' !! f = d !! f.
Proof.
  intros Href Hid Hd. cbn zeta.
  rewrite (handleAddAdmin_store id a w d Href Hid Hd).
  unfold adminIdsOfStore. rewrite Hd. cbn [settingsDoc playersColl from_option].
  rewrite adminIdsField_insert.
  split; [apply arrayUnion_elem; by right|].
  split; [apply arrayUnion_prefix|].
  split; [intros x; apply arrayUnion_elem|].
  split; [apply arrayUnion_NoDup|].
  split; [done|].
  eexists. split; [reflexivity|]. intros f Hf. by rewrite lookup_insert_ne.
Qed.

(** The store of the sample session once the settings document exists,
    with [user-1] as its administrator. *)
Lemma sampleSeeded_settings :
  settingsDoc (store (seedInitialData sampleTime (js "user-1") (fun _ => js "abcdefg")
                        sampleWorld).2)
  = Some (<[ADMIN_IDS_FIELD := VArr [js "user-1"]]> (INITIAL_HUB_DATA sampleTime)).
Proof. apply seedInitialData_settings. Qed.

Lemma handleAddAdmin_effect_witness :
  let w := (seedInitialData sampleTime (js "user-1") (fun _ => js "abcdefg")
              sampleWorld).2 in
  adminIdsOfStore (storeAfter (handleAddAdmin (js "user-2") sampleAdminApp) w)
  = [js "user-1"; js "user-2"]
  /\ js "user-2" ∈ adminIdsOfStore (storeAfter (handleAddAdmin (js "user-2") sampleAdminApp) w).
Proof.
  split; [vm_compute; reflexivity|].
  exact (proj1 (handleAddAdmin_effect (js "user-2") sampleAdminApp _ _
                  eq_refl eq_refl sampleSeeded_settings)).
Defined.

(** X9. On an existing settings document [handleRemoveAdmin(id)] takes
    [id], and only [id], off the list: the new list holds exactly the old
    members other than [id], removing an id that is not on the list
    leaves the list as it was, and neither the players collection nor any
    other field of the settings document changes. *)
Theorem handleRemoveAdmin_effect (id : jsstring) (a : App) (w : World) (d : document) :
  settingsDocRef a = true -> truthy id = true -> settingsDoc (store w) = Some d ->
  let before := adminIdsOfStore (store w) in
  let s' := storeAfter (handleRemoveAdmin id a) w in
  (id ∉ adminIdsOfStore s')
  /\ (forall x, x ∈ adminIdsOfStore s' <-> x ∈ before /\ x <> id)
  /\ (id ∉ before -> adminIdsOfStore s' = before)
  /\ playersColl s' = playersColl (store w)
  /\ exists d' : document,
       settingsDoc s' = Some d'
       /\ forall f : string, f <> ADMIN_IDS_FIELD -> d' !! f = d !! f.
Proof.
  intros Href Hid Hd. cbn zeta.
  rewrite (handleRemoveAdmin_store id a w d Href Hid Hd).
  unfold adminIdsOfStore. rewrite Hd. cbn [settingsDoc playersColl from_option].
  rewrite adminIdsField_insert.
  split; [rewrite arrayRemove_elem; tauto|].
  split; [intros x; apply arrayRemove_elem|].
  split; [apply arrayRemove_absent|].
  split; [done|].
  eexists. split; [reflexivity|]. intros f Hf. by rewrite lookup_insert_ne.
Qed.

Lemma handleRemoveAdmin_effect_witness :
  let w := (seedInitialData sampleTime (js "user-1") (fun _ => js "abcdefg")
              sampleWorld).2 in
  adminIdsOfStore (storeAfter (handleRemoveAdmin (js "user-9") sampleAdminApp) w)
  = [js "user-1"]
  /\ js "user-9" ∉ adminIdsOfStore
                     (storeAfter (handleRemoveAdmin (js "user-9") sampleAdminApp) w).
Proof.
  split; [vm_compute; reflexivity|].
  exact (proj1 (handleRemoveAdmin_effect (js "user-9") sampleAdminApp _ _
                  eq_refl eq_refl sampleSeeded_settings)).
Defined.

(** X10. Adding an id that is not on the list and then removing it gives
    back the list exactly as it was, order included. *)
Theorem add_then_remove_restores_list (id : jsstring) (a b : App) (w : World)
    (d : document) :
  settingsDocRef a = true -> settingsDocRef b = true -> truthy id = true ->
  settingsDoc (store w) = Some d ->
  id ∉ adminIdsOfStore (store w) ->
  adminIdsOfStore
    (storeAfter (handleRemoveAdmin id b) (handleAddAdmin id a w).2)
  = adminIdsOfStore (store w).
Proof.
  intros Ha Hb Hid Hd Hnot.
  pose proof (handleAddAdmin_store id a w d Ha Hid Hd) as Hadd. unfold storeAfter in Hadd.
  rewrite (handleRemoveAdmin_store id b _ _ Hb Hid (f_equal settingsDoc Hadd)).
  unfold adminIdsOfStore in *. rewrite Hd in *. cbn [settingsDoc from_option] in *.
  rewrite !adminIdsField_insert. by apply arrayRemove_arrayUnion.
Qed.

Lemma add_then_remove_restores_list_witness :
  let w := (seedInitialData sampleTime (js "user-1") (fun _ => js "abcdefg")
              sampleWorld).2 in
  adminIdsOfStore
    (storeAfter (handleRemoveAdmin (js "user-2") sampleSecondAdminApp)
       (handleAddAdmin (js "user-2") sampleAdminApp w).2)
  = adminIdsOfStore (store w).
Proof.
  apply (add_then_remove_restores_list (js "user-2") sampleAdminApp sampleSecondAdminApp
           _ _ eq_refl eq_refl eq_refl sampleSeeded_settings).
  vm_compute. intros H. inversion H as [|? ? ? H']. inversion H'.
Defined.

(** X11. While the settings document does not exist, [handleAddAdmin]
    and [handleRemoveAdmin] cannot create it: the update is issued and
    rejected, the error is logged, and the store, still without
    administrators, is unchanged. *)
Theorem admin_update_needs_settings_document (id : jsstring) (a : App) (w : World) :
  settingsDoc (store w) = None ->
  storeAfter (handleAddAdmin id a) w = store w
  /\ storeAfter (handleRemoveAdmin id a) w = store w
  /\ adminIdsOfStore (storeAfter (handleAddAdmin id a) w) = []
  /\ (settingsDocRef a = true -> truthy id = true ->
      trace (handleAddAdmin id a w).2
      = (trace w ++ [UpdateDoc HubDoc {[ ADMIN_IDS_FIELD := ArrayUnion id ]};
                     ConsoleError "Error adding admin:"])%list
      /\ trace (handleRemoveAdmin id a w).2
         = (trace w ++ [UpdateDoc HubDoc {[ ADMIN_IDS_FIELD := ArrayRemove id ]};
                        ConsoleError "Error removing admin:"])%list).
Proof.
  intros Hnone. unfold storeAfter, adminIdsOfStore.
  rewrite handleAddAdmin_run, handleRemoveAdmin_run, Hnone. cbn zeta.
  destruct (negb (settingsDocRef a) || negb (truthy id)) eqn:Hguard;
    cbn [snd store trace]; rewrite Hnone;
    (split; [done|]); (split; [done|]); (split; [done|]); intros Href Hid.
  - by rewrite Href, Hid in Hguard.
  - done.
Qed.

Lemma admin_update_needs_settings_document_witness :
  storeAfter (handleAddAdmin (js "user-2") sampleApp) sampleWorld = store sampleWorld
  /\ adminIdsOfStore (storeAfter (handleAddAdmin (js "user-2") sampleApp) sampleWorld) = [].
Proof.
  pose proof (admin_update_needs_settings_document (js "user-2") sampleApp sampleWorld
                eq_refl) as (H1 & _ & H3 & _).
  exact (conj H1 H3).
Defined.

(** ** The coach message *)

Lemma handleSaveMessage_run (messageInput now : jsstring) (a : App) (w : World) :
  settingsDocRef a = true -> trim messageInput <> [] ->
  let fields : document :=
    {[ "coachsMessage" := VStr (trim messageInput);
       "timestamp" := VStr now;
       "lastEditor" := from_option VStr VNull (userId a) ]} in
  handleSaveMessage messageInput now a w
  = (Done tt,
     mkWorld (mkStore (playersColl (store w))
                (Some (fields ∪ default ∅ (settingsDoc (store w)))))
       (trace w ++ [SetDocMerge HubDoc fields;
                    ConsoleLog "Coach's message updated successfully."])).
Proof.
  intros Href Hmsg. cbn zeta. unfold handleSaveMessage. rewrite Href.
  destruct (trim messageInput) as [|c r] eqn:Htrim; [done|].
  cbn [length Nat.eqb negb orb]. run. by rewrite <- (assoc_L (++)).
Qed.

(** X12. [handleSaveMessage] with a message that is not blank issues one
    merge write. Afterwards the settings document, created if it did not
    exist, has the trimmed message, the given time and the session's
    identity as last editor; every other field is as before, so the
    administrator list is unchanged (and empty when the document was just
    created); the players collection is untouched. *)
Theorem handleSaveMessage_effect (messageInput now : jsstring) (a : App) (w : World) :
  settingsDocRef a = true -> trim messageInput <> [] ->
  let c := handleSaveMessage messageInput now a in
  (exists d' : document,
     settingsDoc (storeAfter c w) = Some d'
     /\ d' !! "coachsMessage" = Some (VStr (trim messageInput))
     /\ d' !! "timestamp" = Some (VStr now)
     /\ d' !! "lastEditor" = Some (from_option VStr VNull (userId a))
     /\ forall f : string,
          f <> "coachsMessage" -> f <> "timestamp" -> f <> "lastEditor" ->
          d' !! f = default ∅ (settingsDoc (store w)) !! f)
  /\ adminIdsOfStore (storeAfter c w) = adminIdsOfStore (store w)
  /\ playersColl (storeAfter c w) = playersColl (store w)
  /\ length (issuedBy c w) = 1%nat.
Proof.
  intros Href Hmsg. cbn zeta. unfold storeAfter, issuedBy.
  rewrite (handleSaveMessage_run messageInput now a w Href Hmsg).
  cbn [snd store trace settingsDoc playersColl]. rewrite issued_suffix.
  split; [|split; [|done]].
  - eexists. split; [reflexivity|].
    do 3 (split; [apply lookup_union_Some_l; by simplify_map_eq|]).
    intros f H1 H2 H3. rewrite lookup_union_r; [done|]. by simplify_map_eq.
  - unfold adminIdsOfStore. cbn [settingsDoc from_option].
    unfold adminIdsField. rewrite lookup_union_r by (unfold ADMIN_IDS_FIELD; by simplify_map_eq).
    by destruct (settingsDoc (store w)).
Qed.

Lemma handleSaveMessage_effect_witness :
  let c := handleSaveMessage (js " Go team! ") (js "2024-10-02T09:00:00.000Z")
             sampleAdminApp in
  adminIdsOfStore (storeAfter c sampleWorld) = adminIdsOfStore (store sampleWorld)
  /\ playersColl (storeAfter c sampleWorld) = playersColl (store sampleWorld)
  /\ length (issuedBy c sampleWorld) = 1%nat.
Proof.
  refine (proj2 (handleSaveMessage_effect (js " Go team! ") (js "2024-10-02T09:00:00.000Z")
                   sampleAdminApp sampleWorld eq_refl _)).
  vm_compute. discriminate.
Defined.

(** ** The subscriptions *)

Lemma deliverSettings_run (loadTime : jsstring) (a : App) (w : World) :
  deliverSettings loadTime a w =
  match settingsDoc (store w) with
  | Some data => (Done (setHubData data (setAdminIds (adminIdsField data) a)), w)
  | None =>
      (Done (setHubData (INITIAL_HUB_DATA loadTime) (setAdminIds [] a)),
       mkWorld (store w) (trace w ++ [ConsoleWarn "Team settings document not found."]))
  end.
Proof. unfold deliverSettings, onHubSnapshot. run. by destruct (settingsDoc (store w)). Qed.

Lemma deliverSettings_admins (loadTime : jsstring) (a : App) (w : World) :
  exists a' : App,
    (deliverSettings loadTime a w).1 = Done a'
    /\ adminIds a' = adminIdsOfStore (store w)
    /\ userId a' = userId a
    /\ store (deliverSettings loadTime a w).2 = store w.
Proof.
  rewrite deliverSettings_run. unfold adminIdsOfStore.
  destruct (settingsDoc (store w)); eexists; by repeat split.
Qed.

(** X13. Promotion is seen by the promoted. After [handleAddAdmin(id)]
    succeeds on an existing settings document, the next delivery of the
    settings subscription makes [isAdmin] true in every session whose
    identity is [id], and puts the ADMIN badge on the card of every
    profile that [id] owns; after a following [handleRemoveAdmin(id)] the
    next delivery makes [isAdmin] false again. *)
Theorem promotion_round_trip (loadTime id : jsstring) (a b : App) (w : World)
    (d : document) :
  settingsDocRef a = true -> truthy id = true -> settingsDoc (store w) = Some d ->
  userId b = Some id ->
  let w1 := (handleAddAdmin id a w).2 in
  let w2 := (handleRemoveAdmin id a w1).2 in
  (exists b1, (deliverSettings loadTime b w1).1 = Done b1 /\ isAdmin b1 = true
              /\ forall p : document,
                   p !! "userId" = Some (VStr id) -> adminBadge p b1 = true)
  /\ (exists b2, (deliverSettings loadTime b w2).1 = Done b2 /\ isAdmin b2 = false).
Proof.
  intros Href Hid Hd Hb. cbn zeta.
  pose proof (handleAddAdmin_store id a w d Href Hid Hd) as Hadd. unfold storeAfter in Hadd.
  pose proof (handleRemoveAdmin_store id a _ _ Href Hid (f_equal settingsDoc Hadd)) as Hrem.
  unfold storeAfter in Hrem. cbn [settingsDoc] in Hrem.
  split.
  - destruct (deliverSettings_admins loadTime b (handleAddAdmin id a w).2)
      as (b1 & Hb1 & Hadm & Hu & _).
    exists b1. split; [done|].
    assert (Hlisted : id ∈ adminIds b1).
    { rewrite Hadm, Hadd. unfold adminIdsOfStore. cbn [settingsDoc from_option].
      rewrite adminIdsField_insert. apply arrayUnion_elem. by right. }
    split.
    + unfold isAdmin. rewrite Hu, Hb. by apply bool_decide_eq_true_2.
    + intros p Hp. unfold adminBadge. rewrite Hp. by apply bool_decide_eq_true_2.
  - destruct (deliverSettings_admins loadTime b
                (handleRemoveAdmin id a (handleAddAdmin id a w).2).2)
      as (b2 & Hb2 & Hadm & Hu & _).
    exists b2. split; [done|]. unfold isAdmin. rewrite Hu, Hb, Hadm, Hrem.
    unfold adminIdsOfStore. cbn [settingsDoc from_option]. rewrite adminIdsField_insert.
    apply bool_decide_eq_false_2. rewrite arrayRemove_elem. tauto.
Qed.

Lemma promotion_round_trip_witness :
  let w := (seedInitialData sampleTime (js "user-1") (fun _ => js "abcdefg")
              sampleWorld).2 in
  let w1 := (handleAddAdmin (js "user-2") sampleAdminApp w).2 in
  let w2 := (handleRemoveAdmin (js "user-2") sampleAdminApp w1).2 in
  (exists b1, (deliverSettings sampleTime sampleSecondAdminApp w1).1 = Done b1
              /\ isAdmin b1 = true
              /\ forall p : document,
                   p !! "userId" = Some (VStr (js "user-2")) -> adminBadge p b1 = true)
  /\ (exists b2, (deliverSettings sampleTime sampleSecondAdminApp w2).1 = Done b2
                 /\ isAdmin b2 = false).
Proof.
  exact (promotion_round_trip sampleTime (js "user-2") sampleAdminApp sampleSecondAdminApp
           _ _ eq_refl eq_refl sampleSeeded_settings eq_refl).
Defined.

(** X14. A delivery of the roster subscription replaces the local list,
    whatever it held, by exactly the stored documents: one profile per
    document, and a profile for every document, each with all the fields
    of its document and, when the document stores no [id], with the
    document id as [id]. *)
Theorem deliverRoster_is_the_store (a : App) (w : World) :
  exists a' : App,
    deliverRoster a w = (Done a', w)
    /\ length (players a') = size (playersColl (store w))
    /\ (forall p, p ∈ players a' ->
          exists (k : jsstring) (d : document),
            playersColl (store w) !! k = Some d
            /\ (forall f : string, f <> "id" -> p !! f = d !! f)
            /\ p !! "id" = Some (default (VStr k) (d !! "id")))
    /\ (forall (k : jsstring) (d : document),
          playersColl (store w) !! k = Some d -> d ∪ {[ "id" := VStr k ]} ∈ players a').
Proof.
  unfold deliverRoster. run. eexists. split; [reflexivity|].
  cbn [players onPlayersSnapshot setPlayers]. unfold rosterOfSnapshot.
  split; [by rewrite length_map, length_map_to_list|]. split.
  - intros p Hp. apply list_elem_of_fmap in Hp as ([k d] & -> & Hkd).
    apply elem_of_map_to_list in Hkd. exists k, d. cbn [fst snd].
    split; [done|]. split.
    + intros f Hf. rewrite lookup_union, lookup_singleton_ne by done.
      by destruct (d !! f).
    + rewrite lookup_union, lookup_singleton_eq. by destruct (d !! "id").
  - intros k d Hkd. apply list_elem_of_fmap. exists (k, d).
    split; [done|]. by apply elem_of_map_to_list.
Qed.

(** ** Seeding, again *)

Lemma profilesOwnedBy_empty (uid : jsstring) (s : Store) :
  snapEmpty (profilesOwnedBy uid s) = true <->
  forall (k : jsstring) (d : document),
    playersColl s !! k = Some d -> d !! "userId" <> Some (VStr uid).
Proof.
  unfold profilesOwnedBy. split.
  - intros Hempty k d Hkd Hown.
    assert (Hin : In (k, d)
                    (List.filter (fun kd => bool_decide (kd.2 !! "userId" = Some (VStr uid)))
                       (map_to_list (playersColl s)))).
    { apply filter_In. split.
      - by apply list_elem_of_In, elem_of_map_to_list.
      - by apply bool_decide_eq_true_2. }
    by destruct (List.filter _ _).
  - intros Hnone. destruct (List.filter _ _) as [|[k d] rest] eqn:Hf; [done|].
    assert (Hin : In (k, d) ((k, d) :: rest)) by (by left).
    rewrite <- Hf in Hin. apply filter_In in Hin as [Hin Hown].
    apply list_elem_of_In, elem_of_map_to_list in Hin.
    apply bool_decide_eq_true_1 in Hown. by destruct (Hnone k d Hin).
Qed.

Lemma newPlayer_userId (newPlayerId uid : jsstring) :
  newPlayer newPlayerId uid !! "userId" = Some (VStr uid).
Proof. unfold newPlayer. by simplify_map_eq. Qed.

(** X15. [ensureAdminAndSeed] is idempotent and only ever adds: run
    again for the same identity, with whatever fresh id and random
    draws, it issues nothing and leaves the world as the first run left
    it; and the first run keeps every document stored under another id
    than the new one. *)
Theorem ensureAdminAndSeed_idempotent (loadTime loadTime2 uid newPlayerId newPlayerId2 : jsstring)
    (rand rand2 : nat -> jsstring) (w : World) :
  let w1 := (ensureAdminAndSeed loadTime uid newPlayerId rand w).2 in
  ensureAdminAndSeed loadTime2 uid newPlayerId2 rand2 w1 = (Done tt, w1)
  /\ issuedBy (ensureAdminAndSeed loadTime2 uid newPlayerId2 rand2) w1 = []
  /\ (forall k : jsstring,
        k <> newPlayerId -> playersColl (store w1) !! k = playersColl (store w) !! k)
  /\ snapEmpty (profilesOwnedBy uid (store w1)) = false.
Proof.
  cbn zeta.
  assert (Hown : snapEmpty (profilesOwnedBy uid
                   (store (ensureAdminAndSeed loadTime uid newPlayerId rand w).2)) = false).
  { rewrite ensureAdminAndSeed_run.
    destruct (snapEmpty (profilesOwnedBy uid (store w))) eqn:E; [|done].
    cbn [snd store].
    match goal with |- ?probe = false => destruct probe eqn:E2; [|done] end.
    destruct (proj1 (profilesOwnedBy_empty _ _) E2 newPlayerId (newPlayer newPlayerId uid)).
    - cbn. by rewrite lookup_insert_eq.
    - apply newPlayer_userId. }
  assert (Hagain : ensureAdminAndSeed loadTime2 uid newPlayerId2 rand2
                     (ensureAdminAndSeed loadTime uid newPlayerId rand w).2
                   = (Done tt, (ensureAdminAndSeed loadTime uid newPlayerId rand w).2)).
  { by rewrite (ensureAdminAndSeed_run loadTime2), Hown. }
  split; [exact Hagain|]. split.
  - unfold issuedBy. rewrite Hagain. apply issued_nothing.
  - split; [|exact Hown]. intros k Hk. rewrite ensureAdminAndSeed_run.
    destruct (snapEmpty (profilesOwnedBy uid (store w))); [|done].
    cbn. by rewrite lookup_insert_ne.
Qed.

Lemma find_unique {A} (f : A -> bool) (l : list A) (y : A) :
  In y l -> f y = true -> (forall x, In x l -> f x = true -> x = y) ->
  find f l = Some y.
Proof.
  intros Hin Hy Huniq. destruct (find f l) as [x|] eqn:E.
  - apply find_some in E as [Hx Hfx]. by rewrite (Huniq x Hx Hfx).
  - by rewrite (find_none _ _ E y Hin) in Hy.
Qed.

(** X16. First contact, then edit. For an identity without a profile, the
    data effect leaves the session with the profile just created as its
    own profile in the view, stored under the new id: an accepted jersey
    edit made next is therefore the update of that document. *)
Theorem first_contact_then_edit (loadTime uid newPlayerId : jsstring)
    (rand : nat -> jsstring) (a : App) (w : World) :
  db a = true -> isAuthReady a = true -> userId a = Some uid -> truthy uid = true ->
  truthy newPlayerId = true ->
  snapEmpty (profilesOwnedBy uid (store w)) = true ->
  exists (a' : App) (w' : World),
    dataEffect loadTime newPlayerId rand a w = (Done a', w')
    /\ ownProfileInView a' (newPlayer newPlayerId uid) newPlayerId
    /\ playersColl (store w') !! newPlayerId = Some (newPlayer newPlayerId uid)
    /\ forall (jerseyInput : jsstring) (n : Z),
         parseInt jerseyInput = Some n -> 0 <= n <= 99 ->
         issuedBy (handleJerseyUpdate jerseyInput a') w'
         = [UpdateDoc (PlayerDoc newPlayerId) {[ "jerseyNumber" := Put (VNum n) ]}].
Proof.
  intros Hdb Hready Hu Huid Hnew Hnone.
  assert (Hview : exists a' w',
            dataEffect loadTime newPlayerId rand a w = (Done a', w')
            /\ ownProfileInView a' (newPlayer newPlayerId uid) newPlayerId
            /\ playersColl (store w') !! newPlayerId = Some (newPlayer newPlayerId uid)).
  { unfold dataEffect. rewrite Hdb, Hready, Hu. cbn [truthy_opt]. rewrite Huid.
    cbn [negb orb default from_option]. unfold id.
    unfold bind at 1. rewrite ensureAdminAndSeed_run, Hnone.
    unfold deliverRoster. run.
    rewrite deliverSettings_run. cbn [store settingsDoc].
    set (m' := <[newPlayerId := newPlayer newPlayerId uid]> (playersColl (store w))).
    assert (Hfind : find (ownedBy (Some uid)) (rosterOfSnapshot (map_to_list m'))
                    = Some (newPlayer newPlayerId uid)).
    { apply find_unique.
      - apply list_elem_of_In, list_elem_of_fmap.
        exists (newPlayerId, newPlayer newPlayerId uid). split.
        + cbn. by rewrite newPlayer_with_id.
        + apply elem_of_map_to_list. by apply lookup_insert_eq.
      - apply bool_decide_eq_true_2, newPlayer_userId.
      - intros p Hp Hown. apply list_elem_of_In, list_elem_of_fmap in Hp as ([k d] & -> & Hkd).
        apply elem_of_map_to_list in Hkd. cbn [fst snd] in *.
        apply bool_decide_eq_true_1 in Hown.
        rewrite lookup_union, lookup_singleton_ne in Hown by done.
        assert (Hd : d !! "userId" = Some (VStr uid)) by (by destruct (d !! "userId")).
        unfold m' in Hkd. destruct (decide (k = newPlayerId)) as [->|Hne].
        + rewrite lookup_insert_eq in Hkd. injection Hkd as <-. apply newPlayer_with_id.
        + rewrite lookup_insert_ne in Hkd by done.
          by destruct (proj1 (profilesOwnedBy_empty uid (store w)) Hnone k d Hkd). }
    assert (Hid : newPlayer newPlayerId uid !! "id" = Some (VStr newPlayerId)).
    { unfold newPlayer. by simplify_map_eq. }
    destruct (settingsDoc (store w)); eexists _, _; (split; [reflexivity|]);
      (split; [|cbn; by apply lookup_insert_eq]);
      unfold ownProfileInView; cbn; rewrite Hu; cbn [truthy_opt];
      by rewrite Hdb, Huid, Hfind, Hid, Hnew. }
  destruct Hview as (a' & w' & Hrun & Hown & Hstored).
  exists a', w'. split; [done|]. split; [done|]. split; [done|].
  intros jerseyInput n Hn Hrange. unfold issuedBy.
  rewrite (handleJerseyUpdate_accepted _ a' w' n Hn Hrange). cbn [snd].
  destruct Hown as (H1 & H2 & H3 & H4 & H5).
  pose proof (handleUpdateProfile_found {[ "jerseyNumber" := VNum n ]} a' w' _ _
                H1 H2 H3 H4 H5) as Hiss.
  unfold issuedBy in Hiss. by rewrite Hiss, map_fmap_singleton.
Qed.

Lemma first_contact_then_edit_witness :
  exists (a' : App) (w' : World),
    dataEffect sampleTime (js "p1") (fun _ => js "abcdefg")
      (authEffect sampleIdP (initialApp sampleTime)) (mkWorld emptyStore [])
    = (Done a', w')
    /\ ownProfileInView a' (newPlayer (js "p1") (js "user-1")) (js "p1")
    /\ playersColl (store w') !! js "p1" = Some (newPlayer (js "p1") (js "user-1"))
    /\ forall (jerseyInput : jsstring) (n : Z),
         parseInt jerseyInput = Some n -> 0 <= n <= 99 ->
         issuedBy (handleJerseyUpdate jerseyInput a') w'
         = [UpdateDoc (PlayerDoc (js "p1")) {[ "jerseyNumber" := Put (VNum n) ]}].
Proof.
  apply (first_contact_then_edit sampleTime (js "user-1") (js "p1") (fun _ => js "abcdefg")
           (authEffect sampleIdP (initialApp sampleTime)) (mkWorld emptyStore []));
    reflexivity.
Defined.

(** X17. Edit, then look again. After an update of the own profile that
    reached its document, the next delivery of the roster subscription
    shows a profile that has the new value in every field of the update
    and the stored value in every other field. *)
Theorem profile_edit_round_trip (updates : document) (a b : App) (w : World)
    (p d : document) (pid : jsstring) :
  ownProfileInView a p pid ->
  playersColl (store w) !! pid = Some d ->
  let w1 := (handleUpdateProfile updates a w).2 in
  exists (b' : App) (p' : document),
    (deliverRoster b w1).1 = Done b'
    /\ p' ∈ players b'
    /\ (forall (f : string) (v : value), updates !! f = Some v -> p' !! f = Some v)
    /\ (forall f : string, updates !! f = None -> f <> "id" -> p' !! f = d !! f)
    /\ (updates !! "id" = None -> p' !! "id" = Some (default (VStr pid) (d !! "id"))).
Proof.
  intros (Hdb & Hu & Hfind & Hid & Hpid) Hd. cbn zeta.
  rewrite handleUpdateProfile_run, Hdb, Hu, Hfind. cbn [negb orb]. cbn zeta.
  rewrite Hid, Hpid, Hd. cbn [snd].
  unfold deliverRoster. run.
  exists (onPlayersSnapshot
            (map_to_list (<[pid := updates ∪ d]> (playersColl (store w)))) b),
         ((updates ∪ d) ∪ {[ "id" := VStr pid ]}).
  split; [done|]. split.
  - cbn. unfold rosterOfSnapshot. apply list_elem_of_fmap.
    exists (pid, updates ∪ d). split; [done|].
    apply elem_of_map_to_list. by apply lookup_insert_eq.
  - split; [|split].
    + intros f v Hf. apply lookup_union_Some_l, lookup_union_Some_l. done.
    + intros f Hf Hne. rewrite lookup_union, lookup_singleton_ne by done.
      rewrite lookup_union_r by done. by destruct (d !! f).
    + intros Hf. rewrite lookup_union, lookup_singleton_eq.
      rewrite lookup_union_r by done. by destruct (d !! "id").
Qed.

Lemma profile_edit_round_trip_witness :
  let w1 := (handleUpdateProfile {[ "jerseyNumber" := VNum 7 ]} sampleApp sampleWorld).2 in
  exists (b' : App) (p' : document),
    (deliverRoster sampleSecondAdminApp w1).1 = Done b'
    /\ p' ∈ players b'
    /\ (forall (f : string) (v : value),
          ({[ "jerseyNumber" := VNum 7 ]} : document) !! f = Some v -> p' !! f = Some v)
    /\ (forall f : string,
          ({[ "jerseyNumber" := VNum 7 ]} : document) !! f = None -> f <> "id" ->
          p' !! f = newPlayer (js "p1") (js "user-1") !! f)
    /\ (({[ "jerseyNumber" := VNum 7 ]} : document) !! "id" = None ->
        p' !! "id"
        = Some (default (VStr (js "p1")) (newPlayer (js "p1") (js "user-1") !! "id"))).
Proof.
  apply (profile_edit_round_trip {[ "jerseyNumber" := VNum 7 ]} sampleApp
           sampleSecondAdminApp sampleWorld (newPlayer (js "p1") (js "user-1"))
           (newPlayer (js "p1") (js "user-1")) (js "p1")).
  - exact sampleApp_ownProfileInView.
  - vm_compute. reflexivity.
Defined.

(** ** A deployment that starts without a settings document *)

Lemma handleUpdateProfile_settings (updates : document) (a : App) (w : World) :
  settingsDoc (store (handleUpdateProfile updates a w).2) = settingsDoc (store w).
Proof.
  rewrite handleUpdateProfile_run.
  destruct (negb (db a) || negb (truthy_opt (userId a))); [done|]. cbn zeta.
  destruct (find _ _) as [p|]; [|done].
  destruct (p !! "id") as [[|pid| |]|]; try done.
  destruct (truthy pid); [|done].
  by destruct (playersColl (store w) !! pid).
Qed.

(** The three profile editors leave the administrator list of the
    session and the settings document alone. *)
Lemma profile_editor_frame (c : Control) (input aux : jsstring) (a : App) (w : World) :
  c ∈ [UploadPhotoButton; SaveNameButton; SaveJerseyButton] ->
  adminIds (afterHandler (clickControl c input aux a) a w).1 = adminIds a
  /\ settingsDoc (store (afterHandler (clickControl c input aux a) a w).2)
     = settingsDoc (store w).
Proof.
  intros Hc. unfold afterHandler. cbn [fst snd].
  assert (Hpatch : forall field v updates,
            adminIds (settled a
              ((handleUpdateProfile updates a ;; ret (patchSelectedPlayer field v a)) w).1)
            = adminIds a
            /\ settingsDoc (store
                 ((handleUpdateProfile updates a ;; ret (patchSelectedPlayer field v a)) w).2)
               = settingsDoc (store w)).
  { intros field v updates.
    rewrite (bind_done _ _ _ _ (handleUpdateProfile_done updates a w)).
    unfold ret. cbn [fst snd settled]. split; [done|]. apply handleUpdateProfile_settings. }
  apply elem_of_cons in Hc as [->|Hc]; [|apply elem_of_cons in Hc as [->|Hc];
    [|apply list_elem_of_singleton in Hc as ->]]; cbn [clickControl].
  - unfold handlePhotoUpload.
    destruct (default ∅ (selectedPlayer a) !! "name") as [[|name| |]|];
      first [apply Hpatch|done].
  - unfold handleNameUpdate. destruct (1 <? length (trim input))%nat; [apply Hpatch|done].
  - unfold handleJerseyUpdate. destruct (jerseyInRange (parseInt input)); [apply Hpatch|done].
Qed.

Lemma no_admin_controls (a : App) (c : Control) :
  adminIds a = [] -> c ∈ controls a ->
  c ∈ [UploadPhotoButton; SaveNameButton; SaveJerseyButton].
Proof.
  intros Hnone Hc. unfold controls in Hc.
  assert (Hadm : isAdmin a = false).
  { unfold isAdmin. rewrite Hnone. destruct (userId a); [|done].
    apply bool_decide_eq_false_2, not_elem_of_nil. }
  rewrite Hadm in Hc.
  destruct (render a); try (by apply not_elem_of_nil in Hc).
  destruct (isCurrentUser a); [done|by apply not_elem_of_nil in Hc].
Qed.

Lemma sessionStep_noAdminYet (a a' : App) (w w' : World) :
  sessionStep (a, w) (a', w') ->
  adminIds a = [] -> settingsDoc (store w) = None ->
  adminIds a' = [] /\ settingsDoc (store w') = None.
Proof.
  intros Hstep Hadm Hset.
  inversion Hstep as [a0 w0|loadTime a0 w0|idp user a0 w0
                     |loadTime uid np rand a0 w0 Hdb Hready Hu Huid
                     |v a0 w0|player a0 w0 Hin|a0 w0|c input aux a0 w0 Hc]; subst.
  - done.
  - rewrite deliverSettings_run, Hset. done.
  - unfold authStateListener. by destruct (signInIfNeeded idp user).
  - rewrite ensureAdminAndSeed_run. by destruct (snapEmpty _).
  - done.
  - done.
  - done.
  - pose proof (profile_editor_frame c input aux a w (no_admin_controls a c Hadm Hc))
      as [H1 H2].
    unfold afterHandler in H1, H2. cbn [fst snd] in H1, H2. by rewrite H1, H2.
Qed.

Lemma authEffect_adminIds (idp : IdentityProvider) (a : App) :
  adminIds (authEffect idp a) = adminIds a.
Proof.
  unfold authEffect, authStateListener. destruct (initThrows idp); [done|].
  destruct (signInIfNeeded idp (sessionUser idp)); cbn [settled];
    destruct (sessionUser idp); try done;
    destruct (signInIfNeeded idp None) as [[uid|]|]; try done;
    by destruct (signInIfNeeded idp (Some uid)).
Qed.

Lemma deploymentStep_noAdminYet (st st' : list App * World) :
  deploymentStep st st' -> noAdminYet st -> noAdminYet st'.
Proof.
  intros Hstep [Hset Hall]. destruct Hstep as [idp loadTime sessions w
                                              |i a a' sessions w w' Hi Hstep];
    cbn [fst snd] in *.
  - split; [done|]. apply Forall_app. split; [done|].
    apply Forall_singleton. by rewrite authEffect_adminIds.
  - pose proof (Forall_lookup_1 _ _ _ _ Hall Hi) as Ha. cbn beta in Ha.
    destruct (sessionStep_noAdminYet a a' w w' Hstep Ha Hset) as [Ha' Hset'].
    split; [done|]. by apply Forall_insert.
Qed.

(** X18. A deployment whose settings document does not exist never gets
    one, and never gets an administrator, through the application.
    Whatever sessions join and whatever they do (bootstrap, seeding,
    deliveries, navigation, clicks on the controls on their screens), the
    settings document stays absent, every session's administrator list
    stays empty, no session is an administrator, and the only writing
    controls ever on a screen are the three editors of the own profile. *)
Theorem no_settings_document_no_admin_ever (st st' : list App * World) :
  rtc deploymentStep st st' ->
  noAdminYet st ->
  settingsDoc (store st'.2) = None
  /\ forall a : App, a ∈ st'.1 ->
       adminIds a = [] /\ isAdmin a = false
       /\ forall c : Control, c ∈ controls a ->
            c ∈ [UploadPhotoButton; SaveNameButton; SaveJerseyButton].
Proof.
  intros Hsteps Hinv.
  assert (Hinv' : noAdminYet st').
  { induction Hsteps as [|x y z Hstep _ IH]; [done|].
    apply IH. by apply (deploymentStep_noAdminYet x y). }
  destruct Hinv' as [Hset Hall]. split; [done|].
  intros a Ha. rewrite Forall_forall in Hall. pose proof (Hall a Ha) as Hnone.
  split; [done|]. split.
  - unfold isAdmin. rewrite Hnone. destruct (userId a); [|done].
    apply bool_decide_eq_false_2, not_elem_of_nil.
  - intros c. by apply no_admin_controls.
Qed.

Lemma no_settings_document_no_admin_ever_witness :
  let a := authEffect sampleIdP (initialApp sampleTime) in
  let w := (ensureAdminAndSeed sampleTime (js "user-1") (js "p1") (fun _ => js "abcdefg")
              (mkWorld emptyStore [])).2 in
  rtc deploymentStep ([], mkWorld emptyStore []) ([a], w)
  /\ settingsDoc (store w) = None
  /\ forall a' : App, a' ∈ [a] ->
       adminIds a' = [] /\ isAdmin a' = false
       /\ forall c : Control, c ∈ controls a' ->
            c ∈ [UploadPhotoButton; SaveNameButton; SaveJerseyButton].
Proof.
  cbn zeta.
  assert (Hpath : rtc deploymentStep ([], mkWorld emptyStore [])
            ([authEffect sampleIdP (initialApp sampleTime)],
             (ensureAdminAndSeed sampleTime (js "user-1") (js "p1") (fun _ => js "abcdefg")
                (mkWorld emptyStore [])).2)).
  { eapply rtc_l; [apply (step_join sampleIdP sampleTime)|].
    eapply rtc_l; [|apply rtc_refl].
    apply (step_session 0 (authEffect sampleIdP (initialApp sampleTime))
             (authEffect sampleIdP (initialApp sampleTime))
             [authEffect sampleIdP (initialApp sampleTime)]).
    - reflexivity.
    - by apply (step_seed sampleTime (js "user-1") (js "p1")). }
  split; [exact Hpath|].
  apply (no_settings_document_no_admin_ever _ _ Hpath).
  split; [reflexivity|]. apply Forall_nil_2.
Defined.

(** ** Buttons and their handlers *)

Lemma toDouble_small (n : Z) : Z.abs n <= 2 ^ 53 -> toDouble n = n.
Proof. intros Hn. unfold toDouble. by rewrite (proj2 (Z.leb_le _ _) Hn). Qed.

(** Rounding keeps the sign. *)
Lemma toDouble_negative (n : Z) : toDouble n < 0 <-> n < 0.
Proof.
  unfold toDouble. destruct (Z.leb_spec (Z.abs n) (2 ^ 53)) as [Hsmall|Hbig]; [done|].
  cbn zeta.
  set (a := Z.abs n) in *. set (e := Z.log2 a - 52).
  assert (Hlog : 53 <= Z.log2 a).
  { rewrite <- (Z.log2_pow2 53) by lia. apply Z.log2_le_mono. lia. }
  assert (He : 1 <= e) by (unfold e; lia).
  assert (Hpow : 0 < 2 ^ e) by (apply Z.pow_pos_nonneg; lia).
  assert (Hle : 2 ^ e <= a).
  { transitivity (2 ^ Z.log2 a).
    - apply Z.pow_le_mono_r; unfold e; lia.
    - apply Z.log2_spec. lia. }
  assert (Hq : 1 <= a / 2 ^ e).
  { apply Z.div_le_lower_bound; lia. }
  set (q' := if ((2 ^ (e - 1) <? a mod 2 ^ e)%Z || ((a mod 2 ^ e =? 2 ^ (e - 1))%Z
                 && Z.odd (a / 2 ^ e)))%bool then a / 2 ^ e + 1 else a / 2 ^ e).
  assert (Hq' : 1 <= q') by (unfold q'; destruct (_ || _); lia).
  assert (Hprod : 0 < q' * 2 ^ e) by nia.
  destruct n as [|p|p]; cbn [Z.sgn]; lia.
Qed.

(** X19. The Save # button against its handler. With no update in
    flight the button is disabled exactly for the empty text, for a
    negative number and for a text whose number (the double that
    [parseInt] returns) is the one the profile already shows. So it is
    enabled for every in-range number that differs from the one shown,
    and also for numbers above 99 and for text in which [parseInt] finds
    no number, and for these two [handleJerseyUpdate] then issues no
    write. *)
Theorem saveJersey_button_and_handler (jerseyInput : jsstring) (a : App) (w : World) :
  let shown := default ∅ (selectedPlayer a) !! "jerseyNumber" in
  (saveJerseyDisabled false jerseyInput a = true <->
     jerseyInput = []
     \/ exists n : Z, parseInt jerseyInput = Some n
          /\ (n < 0 \/ shown = Some (VNum (toDouble n))))
  /\ (forall n : Z, parseInt jerseyInput = Some n -> 0 <= n <= 99 ->
        shown <> Some (VNum n) -> saveJerseyDisabled false jerseyInput a = false)
  /\ (forall n : Z, parseInt jerseyInput = Some n -> 99 < n ->
        shown <> Some (VNum (toDouble n)) ->
        saveJerseyDisabled false jerseyInput a = false
        /\ issuedBy (handleJerseyUpdate jerseyInput a) w = [])
  /\ (jerseyInput <> [] -> parseInt jerseyInput = None ->
        saveJerseyDisabled false jerseyInput a = false
        /\ issuedBy (handleJerseyUpdate jerseyInput a) w = []).
Proof.
  cbn zeta.
  assert (Hiff : saveJerseyDisabled false jerseyInput a = true <->
            jerseyInput = []
            \/ exists n : Z, parseInt jerseyInput = Some n
                 /\ (n < 0 \/ default ∅ (selectedPlayer a) !! "jerseyNumber"
                                = Some (VNum (toDouble n)))).
  { unfold saveJerseyDisabled. cbn [orb].
    rewrite !orb_true_iff, bool_decide_eq_true.
    destruct (parseInt jerseyInput) as [n|].
    - rewrite bool_decide_eq_true, Z.ltb_lt, toDouble_negative. split.
      + intros [[?|?]|?]; [right; exists n; tauto|by left|right; exists n; tauto].
      + intros [?|(m & [= <-] & [?|?])]; tauto.
    - split; [intros [[?|?]|?]; try done; by left|].
      intros [?|(m & ? & _)]; [tauto|done]. }
  assert (Hrej : ~ parsesInRange jerseyInput ->
            issuedBy (handleJerseyUpdate jerseyInput a) w = []).
  { intros Hno. unfold issuedBy. rewrite (handleJerseyUpdate_rejected _ a w Hno).
    cbn [snd trace]. by rewrite issued_suffix. }
  assert (Henabled : forall n, parseInt jerseyInput = Some n -> 0 <= n ->
            default ∅ (selectedPlayer a) !! "jerseyNumber" <> Some (VNum (toDouble n)) ->
            saveJerseyDisabled false jerseyInput a = false).
  { intros n Hn Hpos Hshown. apply not_true_is_false. intros E.
    apply Hiff in E as [->|(m & Hm & [?|?])]; [by vm_compute in Hn| |];
      rewrite Hn in Hm; injection Hm as <-; [lia|done]. }
  split; [exact Hiff|]. split; [|split].
  - intros n Hn Hrange Hshown. apply (Henabled n); [done|lia|].
    rewrite toDouble_small; [done|].
    transitivity 99; [lia|]. by vm_compute.
  - intros n Hn Hbig Hshown. split; [apply (Henabled n); [done|lia|done]|].
    apply Hrej. intros (m & Hm & ?). rewrite Hn in Hm. injection Hm as <-. lia.
  - intros Hne Hnan. split.
    + apply not_true_is_false. intros E.
      apply Hiff in E as [?|(m & Hm & _)]; [done|]. by rewrite Hnan in Hm.
    + apply Hrej. intros (m & Hm & ?). by rewrite Hnan in Hm.
Qed.

Lemma saveJersey_button_and_handler_witness :
  saveJerseyDisabled false (js "150") sampleApp = false
  /\ issuedBy (handleJerseyUpdate (js "150") sampleApp) sampleWorld = [].
Proof.
  apply (proj1 (proj2 (proj2 (saveJersey_button_and_handler (js "150") sampleApp sampleWorld)))
           150); [reflexivity|lia|vm_compute; discriminate].
Defined.

(** A text one above 2^53 denotes the double 2^53: against a profile
    that shows 2^53 the button is disabled. *)
Example saveJersey_rounds_to_double :
  toDouble 9007199254740993 = 9007199254740992
  /\ toDouble 9007199254740995 = 9007199254740996
  /\ toDouble (2 ^ 60 + 1) = 2 ^ 60
  /\ saveJerseyDisabled false (js "9007199254740993")
       (patchSelectedPlayer "jerseyNumber" (VNum (2 ^ 53)) sampleApp) = true.
Proof. repeat split; vm_compute; reflexivity. Qed.

(** X20. Every remote write a click on an enabled Add button issues is
    the [arrayUnion] of the trimmed text of the field, and that id is not
    empty, has no white space at either end, and is not on the session's
    administrator list. *)
Theorem add_button_writes_new_trimmed_id (newAdminId : jsstring) (a : App)
    (w : World) (e : Event) :
  addAdminDisabled newAdminId a = false ->
  e ∈ issuedBy (clickAddAdmin newAdminId a) w ->
  exists id : jsstring,
    id = trim newAdminId
    /\ e = UpdateDoc HubDoc {[ ADMIN_IDS_FIELD := ArrayUnion id ]}
    /\ id <> []
    /\ (id ∉ adminIds a)
    /\ (forall c, head id = Some c -> isWhiteSpace c = false)
    /\ (forall c, last id = Some c -> isWhiteSpace c = false).
Proof.
  intros Henabled He. unfold addAdminDisabled in Henabled.
  apply orb_false_iff in Henabled as [_ Hnew]. apply bool_decide_eq_false_1 in Hnew.
  unfold clickAddAdmin, issuedBy in He. rewrite handleAddAdmin_run in He.
  destruct (negb (settingsDocRef a) || negb (truthy (trim newAdminId))) eqn:Hguard.
  { cbn [snd] in He. rewrite issued_nothing in He. by apply not_elem_of_nil in He. }
  apply orb_false_iff in Hguard as [_ Htruthy].
  exists (trim newAdminId). split; [done|]. split.
  - cbn zeta in He.
    destruct (settingsDoc (store w)); cbn [snd trace] in He;
      rewrite issued_suffix in He; cbn in He;
      by apply list_elem_of_singleton in He.
  - split; [intros Hnil; by rewrite Hnil in Htruthy|].
    split; [done|]. split; [apply trim_head|apply trim_last].
Qed.

Lemma add_button_writes_new_trimmed_id_witness :
  exists id : jsstring,
    id = trim (js " user-2 ")
    /\ UpdateDoc HubDoc {[ ADMIN_IDS_FIELD := ArrayUnion (js "user-2") ]}
       = UpdateDoc HubDoc {[ ADMIN_IDS_FIELD := ArrayUnion id ]}
    /\ id <> []
    /\ (id ∉ adminIds sampleAdminApp)
    /\ (forall c, head id = Some c -> isWhiteSpace c = false)
    /\ (forall c, last id = Some c -> isWhiteSpace c = false).
Proof.
  apply (add_button_writes_new_trimmed_id (js " user-2 ") sampleAdminApp sampleWorld).
  - reflexivity.
  - vm_compute. apply list_elem_of_here.
Defined.

(** X21. [handlePhotoUpload]. When the open profile has a string name the
    handler sets [headshotUrl], in at most one remote write and in the
    optimistic copy, to the placeholder URL built from the random colour
    and the first two code units of that name. When the name is not a
    string the handler throws before any write, and the optimistic copy
    stays as it was. *)
Theorem handlePhotoUpload_effect (color : jsstring) (a : App) (w : World) :
  (forall name : jsstring,
     default ∅ (selectedPlayer a) !! "name" = Some (VStr name) ->
     let url := (js "https://placehold.co/100x100/" ++ color ++ js "/ffffff?text="
                   ++ substring0 2 name)%list in
     (handlePhotoUpload color a w).1 = Done (patchSelectedPlayer "headshotUrl" (VStr url) a)
     /\ (issuedBy (handlePhotoUpload color a) w = []
         \/ exists pid : jsstring,
              issuedBy (handlePhotoUpload color a) w
              = [UpdateDoc (PlayerDoc pid) {[ "headshotUrl" := Put (VStr url) ]}])
     /\ forall (p : document) (pid : jsstring),
          ownProfileInView a p pid ->
          issuedBy (handlePhotoUpload color a) w
          = [UpdateDoc (PlayerDoc pid) {[ "headshotUrl" := Put (VStr url) ]}])
  /\ ((forall name : jsstring, default ∅ (selectedPlayer a) !! "name" <> Some (VStr name)) ->
      afterHandler (handlePhotoUpload color a) a w = (a, w)).
Proof.
  split.
  - intros name Hname. cbn zeta. unfold handlePhotoUpload, issuedBy. rewrite Hname.
    rewrite (bind_done _ _ _ _ (handleUpdateProfile_done _ a w)). unfold ret. cbn [fst snd].
    split; [done|]. split.
    + destruct (handleUpdateProfile_issued
                  {[ "headshotUrl" := VStr (js "https://placehold.co/100x100/" ++ color
                       ++ js "/ffffff?text=" ++ substring0 2 name)%list ]} a w)
        as [Hnil|(p & pid & uid & _ & _ & _ & _ & Hiss)]; unfold issuedBy in *.
      * by left.
      * right. exists pid. by rewrite Hiss, map_fmap_singleton.
    + intros p pid (H1 & H2 & H3 & H4 & H5).
      pose proof (handleUpdateProfile_found
                    {[ "headshotUrl" := VStr (js "https://placehold.co/100x100/" ++ color
                         ++ js "/ffffff?text=" ++ substring0 2 name)%list ]}
                    a w p pid H1 H2 H3 H4 H5) as Hiss.
      unfold issuedBy in Hiss. by rewrite Hiss, map_fmap_singleton.
  - intros Hname. unfold afterHandler, handlePhotoUpload.
    destruct (default ∅ (selectedPlayer a) !! "name") as [[|name| |]|]; try done.
    by destruct (Hname name).
Qed.

Lemma handlePhotoUpload_effect_witness :
  issuedBy (handlePhotoUpload (js "3fa2c1") sampleApp) sampleWorld
  = [UpdateDoc (PlayerDoc (js "p1"))
       {[ "headshotUrl" :=
            Put (VStr (js "https://placehold.co/100x100/3fa2c1/ffffff?text=Ne")) ]}]
  /\ afterHandler (handlePhotoUpload (js "3fa2c1") (openDetail ∅ sampleApp))
       (openDetail ∅ sampleApp) sampleWorld
     = (openDetail ∅ sampleApp, sampleWorld).
Proof.
  split.
  - apply (proj2 (proj2 (proj1 (handlePhotoUpload_effect (js "3fa2c1") sampleApp sampleWorld)
                           (js "New Recruit user") eq_refl))
             (newPlayer (js "p1") (js "user-1")) (js "p1") sampleApp_ownProfileInView).
  - apply (proj2 (handlePhotoUpload_effect (js "3fa2c1") (openDetail ∅ sampleApp)
                    sampleWorld)).
    intros name. vm_compute. discriminate.
Defined.

(** ** Which identity the bootstrap gives *)

(** X22. When the initialisation succeeds the store handle is set, and
    the identity is: the uid of the existing session, with no sign-in
    consulted; otherwise the uid that the chosen sign-in gives (the
    custom token when one is supplied, the anonymous sign-in when not);
    and the sentinel [anonymous] when the sign-in resolves without a
    user. In each of these cases the session is ready. *)
Theorem authEffect_identity (idp : IdentityProvider) (a : App) :
  initThrows idp = false ->
  db (authEffect idp a) = true
  /\ (forall uid, sessionUser idp = Some uid -> truthy uid = true ->
        userId (authEffect idp a) = Some uid /\ isAuthReady (authEffect idp a) = true)
  /\ (forall tok uid, sessionUser idp = None -> initialAuthToken idp = Some tok ->
        truthy tok = true -> signInWithCustomToken idp tok = SignedIn (Some uid) ->
        truthy uid = true ->
        userId (authEffect idp a) = Some uid /\ isAuthReady (authEffect idp a) = true)
  /\ (forall uid, sessionUser idp = None -> truthy_opt (initialAuthToken idp) = false ->
        signInAnonymously idp = SignedIn (Some uid) -> truthy uid = true ->
        userId (authEffect idp a) = Some uid /\ isAuthReady (authEffect idp a) = true)
  /\ (sessionUser idp = None -> signInIfNeeded idp None = SignedIn None ->
        userId (authEffect idp a) = Some (js "anonymous")
        /\ isAuthReady (authEffect idp a) = true).
Proof.
  intros Hinit. unfold authEffect. rewrite Hinit.
  assert (Hsigned : forall uid, sessionUser idp = None ->
            signInIfNeeded idp None = SignedIn (Some uid) -> truthy uid = true ->
            userId (let a1 := setAuth true (setDb true a) in
                    let a2 := settled a1 (authStateListener idp (sessionUser idp) a1) in
                    match sessionUser idp, signInIfNeeded idp None with
                    | None, SignedIn (Some uid) =>
                        settled a2 (authStateListener idp (Some uid) a2)
                    | _, _ => a2
                    end) = Some uid
            /\ isAuthReady (let a1 := setAuth true (setDb true a) in
                    let a2 := settled a1 (authStateListener idp (sessionUser idp) a1) in
                    match sessionUser idp, signInIfNeeded idp None with
                    | None, SignedIn (Some uid) =>
                        settled a2 (authStateListener idp (Some uid) a2)
                    | _, _ => a2
                    end) = true).
  { intros uid Hsess Hsign Huid. cbn zeta. rewrite Hsess, Hsign.
    unfold authStateListener. rewrite Hsign. cbn [signInIfNeeded settled].
    cbn. by rewrite Huid. }
  split; [|split; [|split; [|split]]].
  - cbn zeta. unfold authStateListener.
    destruct (signInIfNeeded idp (sessionUser idp)); cbn [settled];
      destruct (sessionUser idp); try done;
      destruct (signInIfNeeded idp None) as [[uid|]|]; try done;
      by destruct (signInIfNeeded idp (Some uid)).
  - intros uid Hsess Huid. cbn zeta. rewrite Hsess.
    unfold authStateListener. cbn. by rewrite Huid.
  - intros tok uid Hsess Htok Htruthy Hsign Huid. apply Hsigned; [done| |done].
    unfold signInIfNeeded. rewrite Htok. cbn [truthy_opt default from_option].
    by rewrite Htruthy.
  - intros uid Hsess Htok Hsign Huid. apply Hsigned; [done| |done].
    unfold signInIfNeeded. by rewrite Htok.
  - intros Hsess Hsign. cbn zeta. rewrite Hsess, Hsign.
    unfold authStateListener. by rewrite Hsign.
Qed.

Lemma authEffect_identity_witness :
  userId (authEffect sampleIdP (initialApp sampleTime)) = Some (js "user-1")
  /\ isAuthReady (authEffect sampleIdP (initialApp sampleTime)) = true.
Proof.
  apply (proj1 (proj2 (proj2 (proj2 (authEffect_identity sampleIdP (initialApp sampleTime)
                                        eq_refl))))
           (js "user-1")); reflexivity.
Defined.


(** ** A number through the jersey field *)

Lemma js_String (c : ascii) (s : string) : js (String c s) = N_of_ascii c :: js s.
Proof. reflexivity. Qed.

Lemma pretty_N_char_digit (x : N) :
  (x < 10)%N -> digitVal (N_of_ascii (pretty_N_char x)) = Some (Z.of_N x).
Proof.
  intros Hx.
  assert (Hcases : (x = 0 \/ x = 1 \/ x = 2 \/ x = 3 \/ x = 4 \/ x = 5 \/ x = 6 \/ x = 7
                    \/ x = 8 \/ x = 9)%N) by lia.
  by repeat (destruct Hcases as [->|Hcases]); [..|subst x].
Qed.

Lemma digit_not_space_or_sign (c : N) :
  isDigit c -> isWhiteSpace c = false /\ c <> 45%N /\ c <> 43%N.
Proof.
  intros [d Hd]. unfold digitVal in Hd.
  destruct ((48 <=? c) && (c <=? 57))%N eqn:E; [|done].
  apply andb_true_iff in E as [H1%N.leb_le H2%N.leb_le].
  split; [|lia]. unfold isWhiteSpace.
  repeat match goal with
         | |- context [(?a <=? ?b)%N] => destruct (N.leb_spec a b); try lia
         | |- context [(?a =? ?b)%N] => destruct (N.eqb_spec a b); try lia
         end; done.
Qed.

Lemma decimalValue_cons (d : Z) (ds : list Z) :
  decimalValue (d :: ds) = d * 10 ^ Z.of_nat (length ds) + decimalValue ds.
Proof.
  unfold decimalValue. cbn [fold_left]. replace (10 * 0 + d) with d by lia.
  assert (Hgen : forall ds acc,
            fold_left (fun acc d => 10 * acc + d) ds acc
            = acc * 10 ^ Z.of_nat (length ds)
              + fold_left (fun acc d => 10 * acc + d) ds 0).
  { clear. induction ds as [|x ds IH]; intros acc; cbn [fold_left length].
    - cbn. lia.
    - rewrite (IH (10 * acc + x)), (IH (10 * 0 + x)).
      rewrite Nat2Z.inj_succ, Z.pow_succ_r by lia. lia. }
  apply Hgen.
Qed.

Lemma digitsPrefix_all_digits (l : list N) :
  Forall isDigit l -> length (digitsPrefix l) = length l.
Proof.
  induction 1 as [|c l [d Hd] _ IH]; [done|]. cbn [digitsPrefix]. rewrite Hd. cbn.
  by rewrite IH.
Qed.

(** The digits [pretty_N_go] puts in front of a digit string, and their
    value. *)
Lemma pretty_N_go_digits (x : N) :
  forall s : string,
    Forall isDigit (js s) ->
    Forall isDigit (js (pretty_N_go x s))
    /\ decimalValue (digitsPrefix (js (pretty_N_go x s)))
       = Z.of_N x * 10 ^ Z.of_nat (length (js s)) + decimalValue (digitsPrefix (js s)).
Proof.
  induction (N.lt_wf_0 x) as [x _ IH]. intros s Hs.
  destruct (decide (x = 0)%N) as [->|Hx].
  { rewrite pretty_N_go_0. split; [done|]. lia. }
  rewrite pretty_N_go_step by lia.
  assert (Hlt : (x `div` 10 < x)%N) by (apply N.div_lt; lia).
  assert (Hmod : (x `mod` 10 < 10)%N) by (apply N.mod_lt; lia).
  pose proof (pretty_N_char_digit _ Hmod) as Hc.
  assert (Hs' : Forall isDigit (js (String (pretty_N_char (x `mod` 10)) s))).
  { rewrite js_String. apply Forall_cons. split; [by eexists|done]. }
  destruct (IH _ Hlt _ Hs') as [Hall Hval]. split; [done|].
  rewrite Hval, js_String. cbn [digitsPrefix length]. rewrite Hc.
  rewrite decimalValue_cons, (digitsPrefix_all_digits _ Hs).
  rewrite Nat2Z.inj_succ, Z.pow_succ_r by lia.
  rewrite N2Z.inj_div, N2Z.inj_mod.
  pose proof (Z.div_mod (Z.of_N x) 10 ltac:(lia)) as Hdm.
  change (Z.of_N 10) with 10. nia.
Qed.

Lemma parse_digits (l : list N) :
  Forall isDigit l -> l <> [] ->
  trimStart l = l /\ splitSign l = (1, l) /\ digitsPrefix l <> [].
Proof.
  intros Hall Hne. destruct l as [|c r]; [done|].
  apply Forall_cons in Hall as [Hc Hr].
  destruct (digit_not_space_or_sign c Hc) as (Hws & Hminus & Hplus).
  split; [cbn; by rewrite Hws|]. split.
  - unfold splitSign. destruct c as [|p]; [done|].
    repeat (destruct p as [p|p|]; try done).
  - destruct Hc as [d Hd]. cbn. by rewrite Hd.
Qed.

Lemma parseInt_pretty_N (x : N) : parseInt (js (pretty x)) = Some (Z.of_N x).
Proof.
  unfold pretty, pretty_N. destruct (decide (x = 0)%N) as [->|Hx]; [done|].
  destruct (pretty_N_go_digits x "" (Forall_nil_2 _)) as [Hall Hval].
  change (js "") with (@nil N) in Hval. cbn [length digitsPrefix decimalValue fold_left] in Hval.
  assert (Hne : js (pretty_N_go x "") <> []).
  { intros Hnil. rewrite Hnil in Hval. cbn in Hval. lia. }
  destruct (parse_digits _ Hall Hne) as (Htrim & Hsign & Hdigits).
  unfold parseInt. rewrite Htrim, Hsign.
  destruct (digitsPrefix (js (pretty_N_go x ""))) as [|d ds] eqn:E; [done|].
  f_equal. rewrite Hval. lia.
Qed.

(** X23. A number survives the jersey field. For every integer [n] of
    at most 2^53 in size (the integers a Number holds and shows digit by
    digit), the text the field shows for [n] parses back to [n], as a
    Number too. Hence, when the detail view opens on a profile whose
    jersey number is such an [n], the Save # button is disabled until the
    field is edited; and a number of [0, 99], saved as shown, would pass
    the handler's check. *)
Theorem jersey_field_round_trip (n : Z) (a : App) :
  Z.abs n <= 2 ^ 53 ->
  parseInt (numberToString n) = Some n
  /\ toDouble n = n
  /\ (default ∅ (selectedPlayer a) !! "jerseyNumber" = Some (VNum n) ->
      initialJerseyInput a = Some (numberToString n)
      /\ saveJerseyDisabled false (numberToString n) a = true)
  /\ (0 <= n <= 99 -> jerseyInRange (parseInt (numberToString n)) = true).
Proof.
  intros Hsafe.
  assert (Hparse : parseInt (numberToString n) = Some n).
  { unfold numberToString, pretty, pretty_Z. destruct n as [|p|p].
    - done.
    - apply (parseInt_pretty_N (N.pos p)).
    - pose proof (parseInt_pretty_N (N.pos p)) as Hpos.
      unfold parseInt in *.
      change (js ("-" +:+ pretty p)) with (45%N :: js (pretty (N.pos p))).
      cbn [trimStart]. change (isWhiteSpace 45) with false. cbn [splitSign].
      unfold pretty, pretty_N in *. destruct (decide (N.pos p = 0)%N) as [|_]; [done|].
      destruct (pretty_N_go_digits (N.pos p) "" (Forall_nil_2 _)) as [Hall Hval].
      assert (Hne : js (pretty_N_go (N.pos p) "") <> []).
      { intros Hnil. rewrite Hnil in Hval. cbn in Hval. lia. }
      destruct (parse_digits _ Hall Hne) as (Htrim & Hsign & Hdigits).
      rewrite Htrim, Hsign in Hpos.
      destruct (digitsPrefix (js (pretty_N_go (N.pos p) ""))) as [|d ds]; [done|].
      injection Hpos as Hpos. f_equal. lia. }
  split; [exact Hparse|]. split; [by apply toDouble_small|]. split.
  - intros Hshown. unfold initialJerseyInput, saveJerseyDisabled.
    rewrite Hshown, Hparse, (toDouble_small n Hsafe). split; [done|].
    rewrite bool_decide_eq_true_2 by done. done.
  - intros Hrange. rewrite Hparse. cbn. apply andb_true_iff.
    rewrite Z.leb_le, Z.ltb_lt. lia.
Qed.

Lemma jersey_field_round_trip_witness :
  initialJerseyInput sampleApp = Some (numberToString 99)
  /\ saveJerseyDisabled false (numberToString 99) sampleApp = true
  /\ jerseyInRange (parseInt (numberToString 99)) = true.
Proof.
  assert (Hsafe : Z.abs 99 <= 2 ^ 53) by (by vm_compute).
  pose proof (jersey_field_round_trip 99 sampleApp Hsafe) as (_ & _ & Hshown & Hrange).
  destruct (Hshown eq_refl) as [H1 H2].
  exact (conj H1 (conj H2 (Hrange ltac:(lia)))).
Defined.

(** ** The open profile and the profile that is written *)

(** X24. When no two profiles of the local view share an owner, the
    editors of the detail view write the profile that is open: with the
    own profile open, every update goes to the document of that very
    profile. *)
Theorem editors_write_the_open_profile (a : App) (w : World) (sp : document)
    (pid : jsstring) :
  db a = true -> truthy_opt (userId a) = true ->
  selectedPlayer a = Some sp -> sp ∈ players a -> isCurrentUser a = true ->
  (forall p q, p ∈ players a -> q ∈ players a -> p !! "userId" = q !! "userId" -> p = q) ->
  sp !! "id" = Some (VStr pid) -> truthy pid = true ->
  ownProfileInView a sp pid
  /\ forall updates : document,
       issuedBy (handleUpdateProfile updates a) w
       = [UpdateDoc (PlayerDoc pid) (Put <$> updates)].
Proof.
  intros Hdb Hu Hsel Hin Hcur Huniq Hid Hpid.
  assert (Hown : ownProfileInView a sp pid).
  { unfold ownProfileInView. repeat (split; [done|]). split; [|done].
    unfold isCurrentUser in Hcur. rewrite Hsel in Hcur. cbn in Hcur.
    apply find_unique; [by apply list_elem_of_In|done|].
    intros x Hx Hxown. apply Huniq; [by apply list_elem_of_In|done|].
    unfold ownedBy in *. destruct (userId a); [|done].
    apply bool_decide_eq_true_1 in Hxown, Hcur. congruence. }
  split; [done|]. intros updates.
  destruct Hown as (H1 & H2 & H3 & H4 & H5).
  by apply (handleUpdateProfile_found updates a w sp pid).
Qed.

Lemma editors_write_the_open_profile_witness :
  ownProfileInView sampleApp (newPlayer (js "p1") (js "user-1")) (js "p1")
  /\ forall updates : document,
       issuedBy (handleUpdateProfile updates sampleApp) sampleWorld
       = [UpdateDoc (PlayerDoc (js "p1")) (Put <$> updates)].
Proof.
  assert (Hplayers : players sampleApp = [newPlayer (js "p1") (js "user-1")])
    by (vm_compute; reflexivity).
  apply (editors_write_the_open_profile sampleApp sampleWorld
           (newPlayer (js "p1") (js "user-1")) (js "p1")).
  - vm_compute; reflexivity.
  - vm_compute; reflexivity.
  - vm_compute; reflexivity.
  - rewrite Hplayers. apply list_elem_of_here.
  - vm_compute; reflexivity.
  - intros p q Hp Hq _. rewrite Hplayers in Hp, Hq.
    apply list_elem_of_singleton in Hp. apply list_elem_of_singleton in Hq.
    by rewrite Hp, Hq.
  - vm_compute; reflexivity.
  - vm_compute; reflexivity.
Defined.

(** With two profiles of the same owner in the view, the write goes to
    the first, also while the second is the one on screen. *)
Example duplicate_profiles_write_the_first :
  let second := newPlayer (js "p2") (js "user-1") in
  let a := openDetail second
             (setPlayers [newPlayer (js "p1") (js "user-1"); second] sampleApp) in
  isCurrentUser a = true
  /\ issuedBy (handleJerseyUpdate (js "7") a) sampleWorld
     = [UpdateDoc (PlayerDoc (js "p1")) {[ "jerseyNumber" := Put (VNum 7) ]}].
Proof. vm_compute. done. Qed.

(** ** The seeding branch *)

Lemma mockPlayerId_distinct (rand : nat -> jsstring) (i j : nat) :
  (i < 3)%nat -> (j < 3)%nat -> i <> j -> mockPlayerId rand i <> mockPlayerId rand j.
Proof.
  intros Hi Hj Hij. unfold mockPlayerId.
  assert (H0 : js (pretty 0%nat) = [48%N]) by (vm_compute; reflexivity).
  assert (H1 : js (pretty 1%nat) = [49%N]) by (vm_compute; reflexivity).
  assert (H2 : js (pretty 2%nat) = [50%N]) by (vm_compute; reflexivity).
  destruct i as [|[|[|i]]], j as [|[|[|j]]]; try lia;
    rewrite ?H0, ?H1, ?H2; cbn; congruence.
Qed.

(** X25. What the seeding branch writes: the settings document, with the
    hardcoded dashboard data and the seeding identity as the only
    administrator, and the three example profiles, each under its own
    synthetic id that is also its [userId]. Whatever the random draws,
    the three ids differ, so no example profile overwrites another; and
    documents stored under other ids are kept. *)
Theorem seedInitialData_effect (loadTime uid : jsstring) (rand : nat -> jsstring)
    (w : World) :
  let c := seedInitialData loadTime uid rand in
  settingsDoc (storeAfter c w)
  = Some (<[ADMIN_IDS_FIELD := VArr [uid]]> (INITIAL_HUB_DATA loadTime))
  /\ (forall (i : nat) (player : document),
        MOCK_PLAYERS !! i = Some player ->
        playersColl (storeAfter c w) !! mockPlayerId rand i
        = Some (<["id" := VStr (mockPlayerId rand i)]>
                  (<["userId" := VStr (mockPlayerId rand i)]> player)))
  /\ (forall k : jsstring,
        (forall i : nat, (i < 3)%nat -> k <> mockPlayerId rand i) ->
        playersColl (storeAfter c w) !! k = playersColl (store w) !! k)
  /\ length (issuedBy c w) = 4%nat.
Proof.
  cbn zeta. split; [apply seedInitialData_settings|].
  unfold storeAfter, issuedBy, seedInitialData, MOCK_PLAYERS. run.
  cbn [seedMockPlayers]. run. cbn [fst snd store trace playersColl].
  pose proof (mockPlayerId_distinct rand 0 1 ltac:(lia) ltac:(lia) ltac:(lia)) as H01.
  pose proof (mockPlayerId_distinct rand 0 2 ltac:(lia) ltac:(lia) ltac:(lia)) as H02.
  pose proof (mockPlayerId_distinct rand 1 2 ltac:(lia) ltac:(lia) ltac:(lia)) as H12.
  split; [|split].
  - intros i player Hi. destruct i as [|[|[|i]]]; cbn in Hi; [| | |done];
      injection Hi as <-; by simplify_map_eq.
  - intros k Hk.
    pose proof (Hk 0%nat ltac:(lia)). pose proof (Hk 1%nat ltac:(lia)).
    pose proof (Hk 2%nat ltac:(lia)). by simplify_map_eq.
  - rewrite <- !(assoc_L (++)). by rewrite issued_suffix.
Qed.

(** ** A rejected sign-in, on screen *)

(** X26. A session whose every sign-in is rejected stays on the loading
    screen: no control is ever on screen, and its data effect returns at
    the guard, so it neither seeds nor subscribes. *)
Theorem rejected_sign_in_stuck_on_loading (token : option jsstring)
    (loadTime : jsstring) (w : World) :
  let idp := mkIdP false None token (fun _ => SignInRejected) SignInRejected in
  let a := authEffect idp (initialApp loadTime) in
  render a = LoadingScreen
  /\ controls a = []
  /\ forall lt np rand, dataEffect lt np rand a w = (Done a, w).
Proof.
  cbn zeta. unfold authEffect, authStateListener, signInIfNeeded.
  cbn [initThrows sessionUser initialAuthToken signInWithCustomToken signInAnonymously].
  destruct (truthy_opt token); done.
Qed.

(** ** Ready or not *)

(** X27. From the initial state the auth effect ends ready exactly on
    the paths other than a rejected sign-in, that is when the
    initialisation throws, when a session exists, or when the sign-in
    resolves; and whenever it ends ready the identity is a non-empty
    string. *)
Theorem authEffect_ready_iff (idp : IdentityProvider) (loadTime : jsstring) :
  let a := authEffect idp (initialApp loadTime) in
  (isAuthReady a = true <->
     initThrows idp = true \/ signInIfNeeded idp (sessionUser idp) <> SignInRejected)
  /\ (isAuthReady a = true -> truthy_opt (userId a) = true).
Proof.
  cbn zeta.
  assert (Hiff : isAuthReady (authEffect idp (initialApp loadTime)) = true <->
            initThrows idp = true \/ signInIfNeeded idp (sessionUser idp) <> SignInRejected).
  { split.
    - intros Hready. destruct (initThrows idp) eqn:Hinit; [by left|]. right.
      intros Hrej. unfold authEffect, authStateListener in Hready.
      rewrite Hinit, Hrej in Hready. cbn [settled] in Hready.
      destruct (sessionUser idp); [done|]. by rewrite Hrej in Hready.
    - intros Hpath.
      by apply (authEffect_ready_unless_sign_in_rejects idp (initialApp loadTime)). }
  split; [exact Hiff|].
  intros Hready. apply Hiff in Hready.
  by apply (authEffect_ready_unless_sign_in_rejects idp (initialApp loadTime)).
Qed.

Lemma authEffect_ready_iff_witness :
  isAuthReady (authEffect sampleIdP (initialApp sampleTime)) = true
  /\ truthy_opt (userId (authEffect sampleIdP (initialApp sampleTime))) = true.
Proof.
  pose proof (authEffect_ready_iff sampleIdP sampleTime) as [Hiff Hid].
  assert (Hready : isAuthReady (authEffect sampleIdP (initialApp sampleTime)) = true).
  { apply Hiff. right. vm_compute. discriminate. }
  exact (conj Hready (Hid Hready)).
Defined.

(** ** The coach message, saved and shown *)

(** X28. Save, then look again. After [handleSaveMessage] with a message
    that is not blank, the next delivery of the settings subscription
    shows the trimmed message on the dashboard, keeps the administrator
    list the store had, and leaves the Save Message button disabled for
    the text just saved. *)
Theorem save_message_round_trip (messageInput now loadTime : jsstring) (a b : App)
    (w : World) :
  settingsDocRef a = true -> trim messageInput <> [] ->
  let w1 := (handleSaveMessage messageInput now a w).2 in
  exists b' : App,
    (deliverSettings loadTime b w1).1 = Done b'
    /\ hubData b' !! "coachsMessage" = Some (VStr (trim messageInput))
    /\ hubData b' !! "lastEditor" = Some (from_option VStr VNull (userId a))
    /\ adminIds b' = adminIdsOfStore (store w)
    /\ saveMessageDisabled false messageInput b' = true.
Proof.
  intros Href Hmsg. cbn zeta.
  rewrite (handleSaveMessage_run messageInput now a w Href Hmsg). cbn [snd].
  rewrite deliverSettings_run. cbn [store settingsDoc].
  eexists. split; [reflexivity|]. cbn [hubData setHubData adminIds setAdminIds].
  assert (Hshown : ({[ "coachsMessage" := VStr (trim messageInput); "timestamp" := VStr now;
                       "lastEditor" := from_option VStr VNull (userId a) ]}
                    ∪ default ∅ (settingsDoc (store w)) : document) !! "coachsMessage"
                   = Some (VStr (trim messageInput))).
  { apply lookup_union_Some_l. by simplify_map_eq. }
  split; [exact Hshown|]. split; [apply lookup_union_Some_l; by simplify_map_eq|]. split.
  - unfold adminIdsOfStore, adminIdsField.
    rewrite lookup_union_r by (unfold ADMIN_IDS_FIELD; by simplify_map_eq).
    by destruct (settingsDoc (store w)).
  - unfold saveMessageDisabled. cbn [orb hubData setHubData].
    apply bool_decide_eq_true_2. by rewrite Hshown.
Qed.

Lemma save_message_round_trip_witness :
  let w1 := (handleSaveMessage (js " Go team! ") (js "2024-10-02T09:00:00.000Z")
               sampleAdminApp sampleWorld).2 in
  exists b' : App,
    (deliverSettings sampleTime sampleSecondAdminApp w1).1 = Done b'
    /\ hubData b' !! "coachsMessage" = Some (VStr (trim (js " Go team! ")))
    /\ hubData b' !! "lastEditor" = Some (from_option VStr VNull (userId sampleAdminApp))
    /\ adminIds b' = adminIdsOfStore (store sampleWorld)
    /\ saveMessageDisabled false (js " Go team! ") b' = true.
Proof.
  refine (save_message_round_trip (js " Go team! ") (js "2024-10-02T09:00:00.000Z")
            sampleTime sampleAdminApp sampleSecondAdminApp sampleWorld eq_refl _).
  vm_compute. discriminate.
Defined.
